(** * Auto Slide Deck Generator: a shallow embedding of [Auto_Deck_Generator.py]

    The development follows the script part by part: text utilities
    ([sanitize_filename], [clamp]), the web-search context builder
    ([get_web_results]), the content request ([call_openai_json] under its
    retry decorator), the normalizer ([validate_slide_json]), the deck
    renderer ([create_pptx]) and the orchestration ([build_deck]).

    Python [str] values are sequences of Unicode code points, so a string is
    a [list N]; [len], slicing and [strip] then mean what they mean in
    Python.  External collaborators (the search provider, the chat
    completion endpoint, the random generator, the JSON parser) are inputs of
    the functions that call them. *)

From Stdlib Require Import List Bool Arith ZArith NArith Lia.
From Stdlib Require Import String Ascii DecimalString.
Import ListNotations.

Set Warnings "-register-all,-abstract-large-number".

(* ================================================================== *)
(** * Python strings *)
(* ================================================================== *)

Module PyStr.

(** A string is the list of its code points. *)
Definition str := list N.

(** A literal of the source whose characters are all ASCII. *)
Definition lit (s : string) : str :=
  List.map N_of_ascii (list_ascii_of_string s).

Fixpoint eqb (a b : str) : bool :=
  match a, b with
  | [], [] => true
  | x :: a', y :: b' => N.eqb x y && eqb a' b'
  | _, _ => false
  end.

(** [len(s)] *)
Definition len (s : str) : Z := Z.of_nat (List.length s).

(** [c.isspace()], the characters [str.strip()] removes: CPython's
    [_PyUnicode_IsWhitespace]. *)
Definition isspace (c : N) : bool :=
  (((9 <=? c) && (c <=? 13)) || ((28 <=? c) && (c <=? 32))
   || (c =? 133) || (c =? 160) || (c =? 5760)
   || ((8192 <=? c) && (c <=? 8202))
   || (c =? 8232) || (c =? 8233) || (c =? 8239) || (c =? 8287)
   || (c =? 12288))%N.

Fixpoint lstrip (s : str) : str :=
  match s with
  | [] => []
  | c :: t => if isspace c then lstrip t else s
  end.

Definition rstrip (s : str) : str := rev (lstrip (rev s)).

(** [s.strip()] *)
Definition strip (s : str) : str := rstrip (lstrip s).

(** [s.replace(old, new)] for one-character [old] and [new]. *)
Definition replace_char (old new : N) (s : str) : str :=
  List.map (fun c => if N.eqb c old then new else c) s.

(** [s[:stop]], with Python's reading of a negative [stop]. *)
Definition slice_to (s : str) (stop : Z) : str :=
  if (0 <=? stop)%Z then firstn (Z.to_nat stop) s
  else firstn (Z.to_nat (len s + stop)) s.

(** [s.endswith(suffix)] *)
Definition endswith (s suffix : str) : bool :=
  (List.length suffix <=? List.length s)%nat
  && eqb (skipn (List.length s - List.length suffix) s) suffix.

(** [s.lower()] on the ASCII letters.  The script lowers only the result
    of [sanitize_filename], whose characters are ASCII (see
    [sanitize_filename_chars] below). *)
Definition lower_char (c : N) : N :=
  (if (65 <=? c) && (c <=? 90) then c + 32 else c)%N.

Definition lower (s : str) : str := List.map lower_char s.

(** [sep.join(parts)] *)
Fixpoint join (sep : str) (parts : list str) : str :=
  match parts with
  | [] => []
  | [p] => p
  | p :: rest => p ++ sep ++ join sep rest
  end.

(** [str(n)] for a natural number and for an integer. *)
Definition of_nat (n : nat) : str := lit (NilZero.string_of_uint (Nat.to_uint n)).
Definition of_Z (z : Z) : str := lit (NilZero.string_of_int (Z.to_int z)).

(** Truth value of a string: non-empty. *)
Definition truthy (s : str) : bool :=
  match s with [] => false | _ => true end.

(** No leading and no trailing whitespace. *)
Definition trimmed (s : str) : bool :=
  match s with
  | [] => true
  | c :: _ => negb (isspace c) && negb (isspace (last s c))
  end.

End PyStr.

Import PyStr.

(* ================================================================== *)
(** * Data structures and utilities *)
(* ================================================================== *)

(** The character class [[A-Za-z0-9_.-]] of [sanitize_filename]. *)
Definition filename_char (c : N) : bool :=
  (((65 <=? c) && (c <=? 90)) || ((97 <=? c) && (c <=? 122))
   || ((48 <=? c) && (c <=? 57))
   || (c =? 95) || (c =? 46) || (c =? 45))%N.

(** [re.sub(r"[^A-Za-z0-9_.-]", "", name)] *)
Definition re_sub_disallowed (name : str) : str := filter filename_char name.

Definition sanitize_filename (name : str) : str :=
  let name := replace_char 32%N 95%N (strip name) in
  re_sub_disallowed name.

Definition clamp (text : str) (max_chars : Z) : str :=
  if (len text <=? max_chars)%Z then text
  else slice_to text (max_chars - 3) ++ lit "...".

(** Exceptions the script raises or lets through. *)
Inductive exn :=
| RuntimeError (msg : str)
| ValueError (msg : str)
| AttributeError (msg : str)
| External (tag : nat)          (* raised inside a collaborator *)
| RetryError (last : exn).      (* tenacity's, wrapping the last failure *)

(** A call either returns or raises. *)
Inductive result (A : Type) :=
| Ok (a : A)
| Raise (e : exn).
Arguments Ok {A} a.
Arguments Raise {A} e.

Definition bind {A B : Type} (r : result A) (k : A -> result B) : result B :=
  match r with
  | Ok a => k a
  | Raise e => Raise e
  end.

Notation "x <- r ;; k" := (bind r (fun x => k))
  (at level 61, r at next level, right associativity).

(** [enumerate(l, start)] *)
Fixpoint enumerate {A : Type} (start : nat) (l : list A) : list (nat * A) :=
  match l with
  | [] => []
  | x :: rest => (start, x) :: enumerate (S start) rest
  end.

(** The newline character. *)
Definition nl : str := [10%N].

(* ================================================================== *)
(** * Part 2: web search module *)
(* ================================================================== *)

Record WebResult := {
  r_title : str;
  r_snippet : str;
  r_url : str
}.

(** A hit of the search provider: a dictionary from strings to strings. *)
Definition hit := list (str * str).

(** [r.get(key, "")] *)
Fixpoint hit_get (r : hit) (key : str) : str :=
  match r with
  | [] => []
  | (k, v) :: rest => if eqb k key then v else hit_get rest key
  end.

(** The body of the first loop of [get_web_results]. *)
Definition collect (rows : list hit) : list WebResult :=
  flat_map
    (fun r =>
       let title := strip (hit_get r (lit "title")) in
       let snippet := strip (hit_get r (lit "body")) in
       let url :=
         let href := strip (hit_get r (lit "href")) in
         if truthy href then href else strip (hit_get r (lit "url")) in
       if truthy title || truthy snippet
       then [ {| r_title := title; r_snippet := snippet; r_url := url |} ]
       else [])
    rows.

(** One numbered block of the context. *)
Definition chunk (i : nat) (r : WebResult) : str :=
  lit "[" ++ of_nat i ++ lit "] " ++ r_title r ++ nl
  ++ lit "Summary: " ++ r_snippet r ++ nl
  ++ lit "URL: " ++ r_url r ++ nl.

Definition chunks (results : list WebResult) : list str :=
  List.map (fun ir => chunk (fst ir) (snd ir)) (enumerate 1 results).

(** [get_web_results]: [ddgs_installed] is [DDGS is not None] and [ddgs_text]
    is the provider's answer to [ddgs.text(query, max_results=max_results)]. *)
Definition get_web_results
    (ddgs_installed : bool) (ddgs_text : str -> Z -> result (list hit))
    (query : str) (max_results : Z) : result (list WebResult * str) :=
  if negb ddgs_installed
  then Raise (RuntimeError (lit "duckduckgo-search is not installed."))
  else
    rows <- ddgs_text query max_results ;;
    let results := collect rows in
    let context := join nl (chunks results) in
    let context := clamp context 6000 in
    Ok (results, context).

(* ================================================================== *)
(** * Part 3: LLM content generation *)
(* ================================================================== *)

(** What [json.loads] can return.  A float is kept as the two observations
    the script makes of one: its truth value and its [str()] text. *)
Inductive value :=
| VNone
| VBool (b : bool)
| VInt (z : Z)
| VFloat (nonzero : bool) (text : str)
| VStr (s : str)
| VList (items : list value)
| VDict (entries : list (str * value)).

(** [key in d] and [d.get(key, default)] on a dictionary's entries. *)
Fixpoint dict_find (d : list (str * value)) (key : str) : option value :=
  match d with
  | [] => None
  | (k, v) :: rest => if eqb k key then Some v else dict_find rest key
  end.

Definition dict_mem (d : list (str * value)) (key : str) : bool :=
  match dict_find d key with Some _ => true | None => false end.

Definition dict_get (d : list (str * value)) (key : str) (default : value) : value :=
  match dict_find d key with Some v => v | None => default end.

Definition is_dict (v : value) : bool :=
  match v with VDict _ => true | _ => false end.

Definition type_name (v : value) : str :=
  match v with
  | VNone => lit "NoneType"
  | VBool _ => lit "bool"
  | VInt _ => lit "int"
  | VFloat _ _ => lit "float"
  | VStr _ => lit "str"
  | VList _ => lit "list"
  | VDict _ => lit "dict"
  end.

(** [s.get(key, default)]: only a dictionary has the method. *)
Definition py_get (s : value) (key : str) (default : value) : result value :=
  match s with
  | VDict d => Ok (dict_get d key default)
  | _ => Raise (AttributeError
                  (lit "'" ++ type_name s ++ lit "' object has no attribute 'get'"))
  end.

(** [bool(v)] *)
Definition py_bool (v : value) : bool :=
  match v with
  | VNone => false
  | VBool b => b
  | VInt z => negb (Z.eqb z 0)
  | VFloat nonzero _ => nonzero
  | VStr s => truthy s
  | VList items => match items with [] => false | _ => true end
  | VDict entries => match entries with [] => false | _ => true end
  end.

(** The slide dictionaries the normalizer builds and the renderer reads.  A
    field is [None] when the key is absent, which only the renderer's
    [s.get] calls provide for. *)
Record slide := {
  title : option str;
  bullets : option (list str);
  notes : option str
}.

Section Normalizer.

(** [repr] of a string (quoting and escaping), used by [str()] of a list or
    a dictionary. *)
Variable str_repr : str -> str.

Fixpoint py_repr (v : value) : str :=
  match v with
  | VNone => lit "None"
  | VBool true => lit "True"
  | VBool false => lit "False"
  | VInt z => of_Z z
  | VFloat _ text => text
  | VStr s => str_repr s
  | VList items =>
      lit "[" ++ join (lit ", ") (List.map py_repr items) ++ lit "]"
  | VDict entries =>
      lit "{"
      ++ join (lit ", ")
           (List.map (fun kv : str * value => let (k, x) := kv in
                                str_repr k ++ lit ": " ++ py_repr x) entries)
      ++ lit "}"
  end.

(** [str(v)] *)
Definition py_str (v : value) : str :=
  match v with
  | VStr s => s
  | _ => py_repr v
  end.

(** The body of the loop of [validate_slide_json]. *)
Definition normalize_slide (s : value) : result slide :=
  t <- py_get s (lit "title") (VStr []) ;;
  let title := strip (py_str t) in
  bullets <- py_get s (lit "bullets") (VList []) ;;
  n <- py_get s (lit "notes") (VStr []) ;;
  let notes := strip (py_str n) in
  let bullets :=
    match bullets with
    | VList items => items
    | _ => if py_bool bullets then [VStr (py_str bullets)] else []
    end in
  let bullets :=
    List.map (fun b => strip (py_str b))
      (filter (fun b => truthy (strip (py_str b))) bullets) in
  Ok {| title := Some title; bullets := Some bullets; notes := Some notes |}.

Fixpoint normalize_all (slides : list value) : result (list slide) :=
  match slides with
  | [] => Ok []
  | s :: rest =>
      r <- normalize_slide s ;;
      norm <- normalize_all rest ;;
      Ok (r :: norm)
  end.

Definition validate_slide_json (data : value) : result (list slide) :=
  match data with
  | VDict d =>
      match dict_find d (lit "slides") with
      | None => Raise (ValueError (lit "LLM did not return a 'slides' list"))
      | Some slides =>
          match slides with
          | VList (s :: rest) => normalize_all (s :: rest)
          | _ => Raise (ValueError (lit "'slides' must be a non-empty list"))
          end
      end
  | _ => Raise (ValueError (lit "LLM did not return a 'slides' list"))
  end.

(** Lines 408-421 of [build_deck]: the normalization of [raw] and the repair
    pass of the [except] branch.  The first component logs the arguments
    [validate_slide_json] was called with, in order. *)
Definition normalize_or_repair (raw : value) : list value * result (list slide) :=
  match validate_slide_json raw with
  | Ok slides => ([raw], Ok slides)
  | Raise e =>
      match raw with
      | VList items =>
          let repaired := VDict [(lit "slides", VList (filter is_dict items))] in
          ([raw; repaired], validate_slide_json repaired)
      | VDict d =>
          if dict_mem d (lit "Slides")
          then
            let repaired :=
              VDict [(lit "slides", dict_get d (lit "Slides") (VList []))] in
            ([raw; repaired], validate_slide_json repaired)
          else ([raw], Raise e)
      | _ => ([raw], Raise e)
      end
  end.

End Normalizer.

(** ** The content request and its retry decorator *)

(** What [client.chat.completions.create(...)] does on one call: it raises,
    or it returns a response whose message content is a string or [None]. *)
Inductive completion :=
| ApiRaises (e : exn)
| ApiContent (content : option str).

(** What one execution of the body of [call_openai_json] finds around it. *)
Record attempt_env := {
  OPENAI_API_KEY : option str;                  (* os.getenv("OPENAI_API_KEY") *)
  chat_completions_create : str -> str -> completion   (* model, prompt *)
}.

(** [not api_key] *)
Definition key_missing (env : attempt_env) : bool :=
  match OPENAI_API_KEY env with
  | Some (_ :: _) => false
  | _ => true
  end.

(** What the decorated function does, in order. *)
Inductive event :=
| Attempt (attempt_number : nat)
| Sleep (seconds : Z).

(** tenacity's [wait_exponential(multiplier, min, max)], with base 2, asked
    after the attempt numbered [attempt_number] (numbers start at 1). *)
Definition wait_exponential (multiplier min max : Z) (attempt_number : nat) : Z :=
  let exp := (2 ^ (Z.of_nat attempt_number - 1))%Z in
  let result := (multiplier * exp)%Z in
  Z.max (Z.max 0 min) (Z.min result max).

(** tenacity's [stop_after_attempt(max_attempt_number)]. *)
Definition stop_after_attempt (max_attempt_number attempt_number : nat) : bool :=
  (max_attempt_number <=? attempt_number)%nat.

(** Reading a log: how many attempts and how many sleeps it holds. *)
Definition is_attempt (ev : event) : bool :=
  match ev with Attempt _ => true | Sleep _ => false end.

Definition attempts (log : list event) : nat :=
  List.length (filter is_attempt log).

Definition sleeps (log : list event) : nat :=
  List.length (filter (fun ev => negb (is_attempt ev)) log).

Section ContentRequest.

(** [json.loads] *)
Variable json_loads : str -> result value.

(** [OpenAI is not None] *)
Variable openai_installed : bool.

(** The undecorated body of [call_openai_json]. *)
Definition call_openai_json_body (env : attempt_env) (prompt model : str)
  : result value :=
  if negb openai_installed
  then Raise (RuntimeError (lit "openai package not installed."))
  else
    if key_missing env
    then Raise (RuntimeError (lit "OPENAI_API_KEY environment variable not set."))
    else
      match chat_completions_create env model prompt with
      | ApiRaises e => Raise e
      | ApiContent (Some (c :: content)) => json_loads (c :: content)
      | ApiContent _ => Raise (RuntimeError (lit "Empty response from LLM"))
      end.

(** [@retry(wait=..., stop=...)] around a function: with tenacity's default
    [retry_if_exception_type()] every exception of an attempt is a reason to
    try again, [stop] is asked after each failed attempt, and when it says
    stop the call raises [RetryError].  [remaining] is the number of attempts
    the stop rule still allows after the current one. *)
Fixpoint retrying {A : Type} (wait : nat -> Z) (f : nat -> result A)
    (remaining attempt_number : nat) : list event * result A :=
  match f attempt_number with
  | Ok v => ([Attempt attempt_number], Ok v)
  | Raise e =>
      match remaining with
      | O => ([Attempt attempt_number], Raise (RetryError e))
      | S remaining' =>
          let (log, r) := retrying wait f remaining' (S attempt_number) in
          (Attempt attempt_number :: Sleep (wait attempt_number) :: log, r)
      end
  end.

(** [call_openai_json] as decorated:
    [@retry(wait=wait_exponential(multiplier=1, min=1, max=8),
            stop=stop_after_attempt(3))].
    [env n] is what the [n]-th attempt finds. *)
Definition call_openai_json (env : nat -> attempt_env) (prompt model : str)
  : list event * result value :=
  retrying (wait_exponential 1 1 8)
    (fun n => call_openai_json_body (env n) prompt model)
    (3 - 1) 1.

End ContentRequest.

(* ================================================================== *)
(** * Part 4: PowerPoint generation *)
(* ================================================================== *)

(** The document as the drawing directives leave it.  Positions and sizes of
    the decorations are not kept. *)
Definition rgb := (N * N * N)%type.

Definition RGBColor (r g b : N) : rgb := (r, g, b).

Record font := {
  size : option N;           (* Pt *)
  bold : bool;
  italic : bool;
  underline : bool;
  color : option rgb
}.

Definition default_font : font :=
  {| size := None; bold := false; italic := false; underline := false;
     color := None |}.

(** A paragraph: its text, its level and the font set on its runs. *)
Record paragraph := {
  text : str;
  level : option N;
  run_font : font
}.

Definition text_frame := list paragraph.

Definition empty_paragraph : paragraph :=
  {| text := []; level := None; run_font := default_font |}.

(** A slide of the presentation. *)
Record Slide := {
  layout : nat;                        (* index into prs.slide_layouts *)
  title_text : str;                    (* slide.shapes.title.text *)
  title_centered : bool;               (* PP_ALIGN.CENTER on its first paragraph *)
  title_font : font;                   (* font set on the title's runs *)
  body : option text_frame;            (* placeholder 1, when the code touches it *)
  subtitle : option paragraph;         (* the added text box *)
  accent_line : option rgb;            (* fill of the added rectangle *)
  background : option rgb;             (* slide.background.fill, when solid *)
  notes_text : option str              (* notes_slide.notes_text_frame.text *)
}.

Definition set_background (s : Slide) (c : rgb) : Slide :=
  {| layout := layout s; title_text := title_text s;
     title_centered := title_centered s; title_font := title_font s;
     body := body s; subtitle := subtitle s; accent_line := accent_line s;
     background := Some c; notes_text := notes_text s |}.

Definition set_notes (s : Slide) (n : str) : Slide :=
  {| layout := layout s; title_text := title_text s;
     title_centered := title_centered s; title_font := title_font s;
     body := body s; subtitle := subtitle s; accent_line := accent_line s;
     background := background s; notes_text := Some n |}.

(** The presentation: its slides in order. *)
Definition Presentation := list Slide.

(** The generator behind [random]: the sequence of its raw draws and how many
    were used. *)
Record rng := {
  draws : nat -> nat;
  used : nat
}.

(** The generator after [n] more draws. *)
Definition advance (g : rng) (n : nat) : rng :=
  {| draws := draws g; used := used g + n |}.

(** [random.choice(seq)] on a non-empty [seq]. *)
Definition random_choice {A : Type} (g : rng) (seq : list A) (d : A) : A * rng :=
  (nth (draws g (used g) mod List.length seq) seq d, advance g 1).

Definition EMOJIS : list str :=
  [[9989%N]; [128200%N]; [128273%N]; [128202%N]; [128161%N]].

Definition bullet_paragraph (bullet_text : str) : paragraph :=
  {| text := bullet_text; level := Some 0%N;
     run_font := {| size := Some 20%N; bold := false; italic := false;
                    underline := false;
                    color := Some (RGBColor 50 50 50) |} |}.

(** An update of [paragraphs[0]] of a frame. *)
Definition on_first (tf : text_frame) (f : paragraph -> paragraph) : text_frame :=
  match tf with
  | [] => []
  | p :: rest => f p :: rest
  end.

(** [p.text = ""]: the runs go, the level stays. *)
Definition clear_text (p : paragraph) : paragraph :=
  {| text := []; level := level p; run_font := default_font |}.

Definition _add_bullets (tf : text_frame) (bullets : list str) (slide_index : nat)
  : text_frame :=
  let emoji := nth (slide_index mod List.length EMOJIS) EMOJIS [] in
  let tf := on_first tf clear_text in
  fold_left
    (fun tf (ib : nat * str) =>
       let (i, b) := ib in
       let bullet_text := emoji ++ lit " " ++ b in
       if (i =? 0)%nat
       then on_first tf (fun _ => bullet_paragraph bullet_text)
       else tf ++ [bullet_paragraph bullet_text])
    (enumerate 0 bullets) tf.

Definition COLOR_PALETTE : list rgb :=
  [ (230, 240, 250); (245, 245, 245); (250, 240, 230); (240, 250, 240);
    (255, 255, 240) ]%N.

Definition set_slide_background (slide : Slide) (rgb_color : option rgb) (g : rng)
  : Slide * rng :=
  match rgb_color with
  | None =>
      let (c, g') := random_choice g COLOR_PALETTE (0, 0, 0)%N in
      (set_background slide c, g')
  | Some c => (set_background slide c, g)
  end.

Definition TITLE_LAYOUT : nat := 0.
Definition CONTENT_LAYOUT : nat := 1.

(** [s.get("title") or f"Slide {idx+1}"] *)
Definition slide_title (idx : nat) (s : slide) : str :=
  match title s with
  | Some (c :: t) => c :: t
  | _ => lit "Slide " ++ of_nat (idx + 1)
  end.

(** [s.get("bullets", [])] and [s.get("notes", "")] *)
Definition slide_bullets (s : slide) : list str :=
  match bullets s with Some b => b | None => [] end.

Definition slide_notes (s : slide) : str :=
  match notes s with Some n => n | None => [] end.

Definition is_nil {A : Type} (l : list A) : bool :=
  match l with [] => true | _ => false end.

(** The [if] branch of the loop of [create_pptx]: the title slide. *)
Definition title_slide (title : str) : Slide :=
  {| layout := TITLE_LAYOUT;
     title_text := title;
     title_centered := true;
     title_font := {| size := Some 44%N; bold := true; italic := false;
                      underline := false;
                      color := Some (RGBColor 0 51 102) |};
     body := None;
     subtitle :=
       Some {| text := lit "Auto-Generated Deck " ++ [8226%N]
                       ++ lit " Powered by AI";
               level := None;
               run_font := {| size := Some 20%N; bold := false; italic := true;
                              underline := false;
                              color := Some (RGBColor 200 200 200) |} |};
     accent_line := Some (RGBColor 138 43 226);
     background := Some (RGBColor 25 50 100);
     notes_text := None |}.

(** The [else] branch: a content slide. *)
Definition content_slide (title : str) (bullets : list str) (idx : nat) : Slide :=
  {| layout := CONTENT_LAYOUT;
     title_text := title;
     title_centered := false;
     title_font := {| size := Some 30%N; bold := true; italic := false;
                      underline := true;
                      color := Some (RGBColor 0 51 102) |};
     body :=
       Some (if is_nil bullets then [empty_paragraph]
             else _add_bullets [empty_paragraph] bullets idx);
     subtitle := None;
     accent_line := None;
     background := None;
     notes_text := None |}.

(** The body of the loop of [create_pptx]: the slide it adds for the record
    [s] at position [idx], as the directives of that turn leave it. *)
Definition render_slide (g : rng) (idx : nat) (s : slide) : Slide * rng :=
  let title := slide_title idx s in
  let bullets := slide_bullets s in
  let notes := slide_notes s in
  let slide :=
    if (idx =? 0)%nat && is_nil bullets
    then title_slide title
    else content_slide title bullets idx in
  let (slide, g) := set_slide_background slide None g in
  let slide := if truthy notes then set_notes slide notes else slide in
  (slide, g).

(** One turn of the loop: [prs.slides.add_slide] appends. *)
Definition add_slide (st : Presentation * rng) (item : nat * slide)
  : Presentation * rng :=
  let (prs, g) := st in
  let (idx, s) := item in
  let (slide, g) := render_slide g idx s in
  (prs ++ [slide], g).

(** [create_pptx]: [pptx_installed] is [Presentation is not None].  It
    returns the saved document with the path it was saved under. *)
Definition create_pptx (pptx_installed : bool) (g : rng)
    (slides : list slide) (outfile : str) : result (Presentation * str * rng) :=
  if negb pptx_installed
  then Raise (RuntimeError (lit "python-pptx is not installed."))
  else
    let (prs, g) := fold_left add_slide (enumerate 0 slides) ([], g) in
    let safe_out :=
      sanitize_filename (if truthy outfile then outfile else lit "deck.pptx") in
    let safe_out :=
      if negb (endswith (lower safe_out) (lit ".pptx"))
      then safe_out ++ lit ".pptx" else safe_out in
    Ok (prs, safe_out, g).

(* ================================================================== *)
(** * Part 5: orchestration *)
(* ================================================================== *)

(** Everything outside the script that one run of [build_deck] meets. *)
Record world := {
  ddgs_installed : bool;
  ddgs_text : str -> Z -> result (list hit);
  openai_installed : bool;
  llm_env : nat -> attempt_env;
  pptx_installed : bool;
  random : rng
}.

(** What a run leaves behind: the outline printed by a dry run (the function
    then returns [None]), or the document saved under the returned path. *)
Inductive deck_output :=
| DryRun (printed : list slide)
| Written (path : str) (prs : Presentation).

Section Orchestration.

Variable str_repr : str -> str.
Variable json_loads : str -> result value.

(** [format_user_prompt]: the instruction text, which only the completion
    endpoint reads. *)
Variable format_user_prompt : str -> str -> bool -> str.

Definition build_deck (w : world) (topic model : str) (max_results : Z)
    (skip_web dry_run : bool) (outfile : option str) : result deck_output :=
  let topic := strip topic in
  if negb (truthy topic)
  then Raise (ValueError (lit "Topic must not be empty"))
  else
    web_ctx <-
      (if negb skip_web
       then
         r <- get_web_results (ddgs_installed w) (ddgs_text w) topic max_results ;;
         Ok (snd r)
       else Ok []) ;;
    let prompt := format_user_prompt topic web_ctx true in
    raw <- snd (call_openai_json json_loads (openai_installed w) (llm_env w)
                  prompt model) ;;
    slides <- snd (normalize_or_repair str_repr raw) ;;
    if dry_run then Ok (DryRun slides)
    else
      let out :=
        match outfile with
        | Some (c :: o) => c :: o
        | _ => sanitize_filename topic ++ lit ".pptx"
        end in
      r <- create_pptx (pptx_installed w) (random w) slides out ;;
      let '(prs, path, _) := r in
      Ok (Written path prs).

End Orchestration.

(** The dictionary [validate_slide_json] appends for a record:
    [{"title": title, "bullets": bullets, "notes": notes}], a key left out
    when the record lacks it. *)
Definition slide_to_value (r : slide) : value :=
  VDict
    ((match title r with Some t => [(lit "title", VStr t)] | None => [] end)
     ++ (match bullets r with
         | Some bs => [(lit "bullets", VList (List.map VStr bs))]
         | None => []
         end)
     ++ (match notes r with Some n => [(lit "notes", VStr n)] | None => [] end)).

(** What every record the normalizer builds satisfies. *)
Definition normal (r : slide) : Prop :=
  exists t bs n,
    r = {| title := Some t; bullets := Some bs; notes := Some n |}
    /\ trimmed t = true /\ trimmed n = true
    /\ Forall (fun b => trimmed b = true /\ b <> []) bs.

(** The output name [build_deck] hands to the renderer:
    [outfile or f"{sanitize_filename(topic)}.pptx"], on the trimmed topic. *)
Definition output_name (topic : str) (outfile : option str) : str :=
  match outfile with
  | Some (c :: o) => c :: o
  | _ => sanitize_filename (strip topic) ++ lit ".pptx"
  end.

(** ** The entry point *)

(** What [parse_args] returns. *)
Record Namespace := {
  ns_topic : option str;
  ns_max_results : Z;
  ns_model : str;
  ns_outfile : option str;
  ns_dry_run : bool;
  ns_no_web : bool
}.

(** The lines [main] and [build_deck] print. *)
Inductive line :=
| OutlineLine (slides : list slide)     (* the JSON outline of a dry run *)
| ErrorLine (e : exn)                   (* "[ERROR] {e}" *)
| GeneratedLine (out : str)             (* "Deck generated: {out}" *)
| DryRunLine.                           (* "(dry-run complete; no PPTX created)" *)

(** What a run of [main] leaves: the printed lines, the saved document if
    any, and the exit code. *)
Record run := {
  printed : list line;
  saved : option (str * Presentation);
  exit_code : Z
}.

Section EntryPoint.

Variable str_repr : str -> str.
Variable json_loads : str -> result value.
Variable format_user_prompt : str -> str -> bool -> str.

(** [main], from the parsed arguments on.  [input_line] is what
    [input("Enter topic: ")] returns or raises; the call sits outside the
    [try], so what it raises leaves [main]. *)
Definition main (w : world) (ns : Namespace) (input_line : result str)
  : result run :=
  topic <-
    (match ns_topic ns with
     | Some (c :: t) => Ok (c :: t)
     | _ => l <- input_line ;; Ok (strip l)
     end) ;;
  match build_deck str_repr json_loads format_user_prompt w topic
          (ns_model ns) (ns_max_results ns) (ns_no_web ns) (ns_dry_run ns)
          (ns_outfile ns) with
  | Raise e =>
      Ok {| printed := [ErrorLine e]; saved := None; exit_code := 2 |}
  | Ok (DryRun slides) =>
      Ok {| printed := [OutlineLine slides; DryRunLine]; saved := None;
            exit_code := 0 |}
  | Ok (Written path prs) =>
      Ok {| printed := [if truthy path then GeneratedLine path else DryRunLine];
            saved := Some (path, prs); exit_code := 0 |}
  end.

End EntryPoint.

(* ================================================================== *)
(** * Sample inputs *)
(* ================================================================== *)

(** Ten search hits with a 700-character body each. *)
Definition sample_hit : hit :=
  [ (lit "title", lit "Result");
    (lit "body", repeat 120%N 700);
    (lit "href", lit "https://example.org") ].

Definition sample_hits : list hit := repeat sample_hit 10.

(** A two-slide deck: a title slide, then a content slide without a title. *)
Definition sample_deck : list slide :=
  [ {| title := Some (lit "Deck"); bullets := Some []; notes := Some [] |};
    {| title := Some []; bullets := Some [lit "a"; lit "b"];
       notes := Some (lit "say this") |} ].

(** A generator whose [n]-th draw is [n]. *)
Definition sample_rng : rng := {| draws := fun n => n; used := 0 |}.

(** A run in which the API-key variable is never set. *)
Definition no_key_env (n : nat) : attempt_env :=
  {| OPENAI_API_KEY := None;
     chat_completions_create := fun _ _ => ApiContent (Some (lit "{}")) |}.

(** A parser that accepts nothing, and a [repr] that adds nothing: the
    sample runs below never reach either. *)
Definition sample_loads (content : str) : result value := Raise (External 0).
Definition sample_repr (s : str) : str := s.

(** Raw contents: a one-slide outline under the key ["Slides"], under the
    key ["SLIDES"], and as the well-formed mapping. *)
Definition sample_slide : value :=
  VDict [ (lit "title", VStr (lit "T"));
          (lit "bullets", VList [VStr (lit "a"); VStr (lit " b ")]);
          (lit "notes", VStr []) ].

Definition raw_Slides : value := VDict [(lit "Slides", VList [sample_slide])].
Definition raw_SLIDES : value := VDict [(lit "SLIDES", VList [sample_slide])].
Definition raw_slides : value := VDict [(lit "slides", VList [sample_slide])].

(** A run in which everything is installed, the key is set, the search
    returns [sample_hits] and the endpoint answers at once; the parser
    below reads its answer as [raw_slides]. *)
Definition sample_world : world :=
  {| ddgs_installed := true;
     ddgs_text := fun _ _ => Ok sample_hits;
     openai_installed := true;
     llm_env := fun _ =>
       {| OPENAI_API_KEY := Some (lit "sk-test");
          chat_completions_create := fun _ _ => ApiContent (Some (lit "{}")) |};
     pptx_installed := true;
     random := sample_rng |}.

Definition sample_loads_ok (content : str) : result value := Ok raw_slides.

(** A prompt builder that keeps the topic only. *)
Definition sample_prompt (topic web_ctx : str) (seven : bool) : str := topic.

(** Hits without a title and without a body. *)
Definition blank_hits : list hit :=
  [ [(lit "href", lit "https://example.org")];
    [(lit "title", lit "  "); (lit "body", [])] ].

(** The same run without the search package. *)
Definition no_search_world : world :=
  {| ddgs_installed := false;
     ddgs_text := ddgs_text sample_world;
     openai_installed := true;
     llm_env := llm_env sample_world;
     pptx_installed := true;
     random := sample_rng |}.

(** Arguments: a topic, no output name, no web search. *)
Definition sample_args (dry_run : bool) : Namespace :=
  {| ns_topic := Some (lit "Solar power");
     ns_max_results := 8;
     ns_model := lit "gpt-4o-mini";
     ns_outfile := None;
     ns_dry_run := dry_run;
     ns_no_web := true |}.

(* ================================================================== *)
(** * Properties: strings and file names *)
(* ================================================================== *)

Ltac bool_to_prop H :=
  repeat (rewrite ?orb_true_iff, ?andb_true_iff, ?orb_false_iff,
            ?andb_false_iff, ?N.leb_le, ?N.leb_gt, ?N.eqb_eq, ?N.eqb_neq in H).

Lemma eqb_refl (a : str) : eqb a a = true.
Proof.
  induction a as [|x a IH]; simpl; [reflexivity|].
  now rewrite N.eqb_refl, IH.
Qed.

Lemma eqb_eq (a b : str) : eqb a b = true <-> a = b.
Proof.
  split.
  - revert b; induction a as [|x a IH]; intros [|y b] H; simpl in H;
      try discriminate; [reflexivity|].
    apply andb_true_iff in H as [Hx Hr].
    apply N.eqb_eq in Hx. apply IH in Hr. now subst.
  - intros ->. apply eqb_refl.
Qed.

Lemma endswith_app (p suffix : str) : endswith (p ++ suffix) suffix = true.
Proof.
  unfold endswith. rewrite length_app.
  replace (List.length p + List.length suffix - List.length suffix)%nat
    with (List.length p + 0)%nat by lia.
  rewrite skipn_app, Nat.add_0_r, skipn_all.
  replace (List.length p - List.length p)%nat with 0%nat by lia.
  simpl. rewrite eqb_refl, andb_true_r.
  apply Nat.leb_le. lia.
Qed.

Lemma endswith_spec (s suffix : str) :
  endswith s suffix = true <-> exists p, s = p ++ suffix.
Proof.
  split.
  - unfold endswith. intros H. apply andb_true_iff in H as [_ H].
    apply eqb_eq in H.
    exists (firstn (List.length s - List.length suffix) s).
    transitivity (firstn (List.length s - List.length suffix) s
                  ++ skipn (List.length s - List.length suffix) s).
    + symmetry. apply firstn_skipn.
    + now rewrite H.
  - intros [p ->]. apply endswith_app.
Qed.

Lemma filename_char_not_space (c : N) :
  filename_char c = true -> isspace c = false /\ c <> 32%N.
Proof.
  intros H. unfold filename_char in H. bool_to_prop H.
  split; [|lia].
  destruct (isspace c) eqn:E; [|reflexivity].
  unfold isspace in E. bool_to_prop E. lia.
Qed.

Lemma lstrip_no_space (s : str) :
  Forall (fun c => isspace c = false) s -> lstrip s = s.
Proof.
  intros H. destruct H as [|c t Hc _]; simpl; [reflexivity|].
  now rewrite Hc.
Qed.

Lemma strip_no_space (s : str) :
  Forall (fun c => isspace c = false) s -> strip s = s.
Proof.
  intros H. unfold strip, rstrip.
  rewrite (lstrip_no_space s H).
  rewrite lstrip_no_space; [apply rev_involutive|].
  now apply Forall_rev.
Qed.

Lemma filter_all {A : Type} (f : A -> bool) (l : list A) :
  Forall (fun x => f x = true) l -> filter f l = l.
Proof.
  induction 1 as [|x l Hx _ IH]; simpl; [reflexivity|].
  now rewrite Hx, IH.
Qed.

Lemma sanitize_filename_chars (name : str) :
  Forall (fun c => filename_char c = true) (sanitize_filename name).
Proof.
  unfold sanitize_filename, re_sub_disallowed.
  apply Forall_forall. intros c Hc. now apply filter_In in Hc.
Qed.

Lemma sanitize_filename_fixed (name : str) :
  Forall (fun c => filename_char c = true) name -> sanitize_filename name = name.
Proof.
  intros H. unfold sanitize_filename, re_sub_disallowed.
  rewrite strip_no_space.
  - replace (replace_char 32 95 name) with name; [now apply filter_all|].
    unfold replace_char. symmetry.
    rewrite <- (map_id name) at 2. apply map_ext_in.
    intros c Hc. rewrite Forall_forall in H.
    destruct (filename_char_not_space c (H c Hc)) as [_ Hne].
    now apply N.eqb_neq in Hne as ->.
  - eapply Forall_impl; [|exact H].
    intros c Hc. now apply filename_char_not_space.
Qed.

(** C9. [sanitize_filename] is idempotent: sanitizing a sanitized name
    changes nothing, for every string. *)
Theorem sanitize_filename_idempotent (s : str) :
  sanitize_filename (sanitize_filename s) = sanitize_filename s.
Proof.
  apply sanitize_filename_fixed, sanitize_filename_chars.
Qed.

Lemma clamp_short (text : str) (max_chars : Z) :
  (len text <= max_chars)%Z -> clamp text max_chars = text.
Proof.
  intros H. unfold clamp. now apply Z.leb_le in H as ->.
Qed.

Lemma clamp_long (text : str) (max_chars : Z) :
  (3 <= max_chars < len text)%Z ->
  len (clamp text max_chars) = max_chars
  /\ endswith (clamp text max_chars) (lit "...") = true.
Proof.
  intros [H3 Hlt]. unfold clamp.
  destruct (len text <=? max_chars)%Z eqn:E; [apply Z.leb_le in E; lia|].
  split; [|apply endswith_app].
  unfold len in *. rewrite length_app. unfold slice_to.
  destruct (0 <=? max_chars - 3)%Z eqn:E0; [|apply Z.leb_gt in E0; lia].
  rewrite length_firstn. simpl. lia.
Qed.

Lemma lstrip_spec (s : str) :
  exists p, s = p ++ lstrip s
            /\ match lstrip s with [] => True | c :: _ => isspace c = false end.
Proof.
  induction s as [|c t [p [Hp Hh]]]; simpl.
  - now exists [].
  - destruct (isspace c) eqn:E.
    + exists (c :: p). split; [simpl; now f_equal|exact Hh].
    + exists []. split; [reflexivity|exact E].
Qed.

Lemma rev_head_last (c : N) (t : str) :
  rev (c :: t) = last (c :: t) c :: rev (removelast (c :: t)).
Proof.
  assert (Hne : c :: t <> []) by discriminate.
  rewrite (app_removelast_last c Hne) at 1.
  now rewrite rev_app_distr.
Qed.

Lemma strip_trimmed (s : str) : trimmed (strip s) = true.
Proof.
  unfold strip, rstrip.
  destruct (lstrip_spec s) as [p [Hs Hu]].
  destruct (lstrip_spec (rev (lstrip s))) as [q [Hr Hv]].
  destruct (lstrip (rev (lstrip s))) as [|c v'] eqn:Ev; [reflexivity|].
  assert (Hu' : lstrip s = rev (c :: v') ++ rev q).
  { rewrite <- rev_app_distr, <- Hr. symmetry. apply rev_involutive. }
  simpl rev in *.
  destruct (rev v' ++ [c]) as [|h t] eqn:Eh.
  { now destruct (rev v'). }
  rewrite Hu' in Hu. simpl in Hu.
  assert (Hl : last (h :: t) h = c) by (rewrite <- Eh; apply last_last).
  unfold trimmed. now rewrite Hu, Hl, Hv.
Qed.

Lemma strip_of_trimmed (s : str) : trimmed s = true -> strip s = s.
Proof.
  destruct s as [|c t]; [reflexivity|].
  unfold trimmed. intros H. apply andb_true_iff in H as [Hc Hl].
  apply negb_true_iff in Hc, Hl.
  unfold strip, rstrip. cbn [lstrip]. rewrite Hc.
  rewrite rev_head_last. cbn [lstrip]. rewrite Hl.
  rewrite <- rev_head_last. apply rev_involutive.
Qed.

Lemma lower_app (a b : str) : lower (a ++ b) = lower a ++ lower b.
Proof. apply map_app. Qed.

Lemma create_pptx_path (g : rng) (slides : list slide) (outfile : str) :
  exists prs g',
    create_pptx true g slides outfile
    = Ok (prs,
          (let safe_out :=
             sanitize_filename
               (if truthy outfile then outfile else lit "deck.pptx") in
           if endswith (lower safe_out) (lit ".pptx") then safe_out
           else safe_out ++ lit ".pptx"),
          g').
Proof.
  unfold create_pptx. simpl negb. cbv iota.
  destruct (fold_left add_slide (enumerate 0 slides) ([], g)) as [prs g'].
  exists prs, g'. cbv zeta.
  now destruct (endswith _ _).
Qed.

(** C8. Sanitizing ["My Topic!! 2024.pptx"] yields ["My_Topic_2024.pptx"];
    a sanitized name holds only characters of [A-Za-z0-9_.-]; on a name
    without surrounding whitespace and without other disallowed characters
    it is the name with every space turned into an underscore; and the
    renderer saves under the sanitized output name, with [".pptx"] appended
    exactly when the name does not already end with it in any casing. *)
Theorem sanitize_filename_and_extension :
  sanitize_filename (lit "My Topic!! 2024.pptx") = lit "My_Topic_2024.pptx"
  /\ (forall name,
        Forall (fun c => filename_char c = true) (sanitize_filename name))
  /\ (forall name,
        trimmed name = true ->
        Forall (fun c => filename_char c = true \/ c = 32%N) name ->
        sanitize_filename name = replace_char 32 95 name)
  /\ (forall g slides outfile,
        exists prs path g',
          create_pptx true g slides outfile = Ok (prs, path, g')
          /\ let safe_out :=
               sanitize_filename
                 (if truthy outfile then outfile else lit "deck.pptx") in
             (endswith (lower safe_out) (lit ".pptx") = true -> path = safe_out)
             /\ (endswith (lower safe_out) (lit ".pptx") = false ->
                 path = safe_out ++ lit ".pptx")
             /\ endswith (lower path) (lit ".pptx") = true).
Proof.
  split; [reflexivity|]. split; [apply sanitize_filename_chars|]. split.
  - intros name Ht Hall. unfold sanitize_filename, re_sub_disallowed.
    rewrite (strip_of_trimmed name Ht). apply filter_all.
    unfold replace_char. apply Forall_map.
    eapply Forall_impl; [|exact Hall].
    intros c [Hc| ->]; [|reflexivity].
    destruct (filename_char_not_space c Hc) as [_ Hne].
    now apply N.eqb_neq in Hne as ->.
  - intros g slides outfile.
    destruct (create_pptx_path g slides outfile) as [prs [g' H]].
    eexists prs, _, g'. split; [exact H|]. cbv zeta.
    destruct (endswith _ _) eqn:E.
    + repeat split; [discriminate|exact E].
    + repeat split; [discriminate|].
      rewrite lower_app. apply endswith_app.
Qed.

(* ================================================================== *)
(** * Properties: the search context *)
(* ================================================================== *)

(** C7. When the joined per-record text is longer than 6000 characters the
    context returned by [get_web_results] has at most 6000 characters and
    ends with the ellipsis; a joined text of at most 6000 characters is
    returned unchanged. *)
Theorem web_context_capped
    (ddgs_text : str -> Z -> result (list hit)) (query : str)
    (max_results : Z) (rows : list hit) :
  ddgs_text query max_results = Ok rows ->
  exists context,
    get_web_results true ddgs_text query max_results
    = Ok (collect rows, context)
    /\ let joined := join nl (chunks (collect rows)) in
       (6000 < len joined ->
        len context <= 6000 /\ endswith context (lit "...") = true)%Z
       /\ (len joined <= 6000 -> context = joined)%Z.
Proof.
  intros Hrows. unfold get_web_results. simpl negb. cbv iota.
  rewrite Hrows. simpl bind.
  eexists. split; [reflexivity|]. cbv zeta. split.
  - intros Hlong.
    destruct (clamp_long (join nl (chunks (collect rows))) 6000) as [Hlen Hend];
      [lia|].
    split; [lia|exact Hend].
  - apply clamp_short.
Qed.

Lemma web_context_capped_witness :
  (6000 < len (join nl (chunks (collect sample_hits))))%Z
  /\ exists context,
       get_web_results true (fun _ _ => Ok sample_hits) (lit "topic") 10
       = Ok (collect sample_hits, context)
       /\ let joined := join nl (chunks (collect sample_hits)) in
          (6000 < len joined ->
           len context <= 6000 /\ endswith context (lit "...") = true)%Z
          /\ (len joined <= 6000 -> context = joined)%Z.
Proof.
  split.
  - vm_compute. reflexivity.
  - apply (web_context_capped (fun _ _ => Ok sample_hits) (lit "topic") 10
             sample_hits).
    reflexivity.
Defined.

(* ================================================================== *)
(** * Properties: the deck renderer *)
(* ================================================================== *)

Lemma advance_0 (g : rng) : advance g 0 = g.
Proof. destruct g as [d u]. unfold advance. simpl. f_equal. lia. Qed.

Lemma advance_advance (g : rng) (n m : nat) :
  advance (advance g n) m = advance g (n + m).
Proof. unfold advance. simpl. f_equal. lia. Qed.

Lemma render_slide_rng (g : rng) (idx : nat) (s : slide) :
  snd (render_slide g idx s) = advance g 1.
Proof. reflexivity. Qed.

Lemma add_slide_eq (prs : Presentation) (g : rng) (idx : nat) (s : slide) :
  add_slide (prs, g) (idx, s)
  = (prs ++ [fst (render_slide g idx s)], snd (render_slide g idx s)).
Proof. unfold add_slide. now destruct (render_slide g idx s). Qed.

(** The loop adds, after the slides already there, one slide per record: the
    [i]-th new slide is the one [render_slide] makes of the [i]-th record
    with the generator as [i] draws left it. *)
Lemma fold_add_slide (slides : list slide) :
  forall (k : nat) (prs : Presentation) (g : rng),
  exists new,
    fold_left add_slide (enumerate k slides) (prs, g)
    = (prs ++ new, advance g (List.length slides))
    /\ List.length new = List.length slides
    /\ forall i s, nth_error slides i = Some s ->
         nth_error new i
         = Some (fst (render_slide (advance g i) (k + i) s)).
Proof.
  induction slides as [|s rest IH]; intros k prs g.
  - exists []. simpl. rewrite app_nil_r, advance_0.
    repeat split. intros [|i] s H; discriminate.
  - cbn [enumerate fold_left]. rewrite add_slide_eq, render_slide_rng.
    set (r := fst (render_slide g k s)).
    destruct (IH (S k) (prs ++ [r]) (advance g 1)) as [new [Hfold [Hlen Hnth]]].
    exists (r :: new). split; [|split].
    + refine (eq_trans Hfold _). rewrite <- app_assoc. cbn [app List.length].
      f_equal. apply advance_advance.
    + cbn [List.length]. now rewrite Hlen.
    + intros [|i] s' H; cbn [nth_error] in *.
      * injection H as <-. now rewrite advance_0, Nat.add_0_r.
      * rewrite (Hnth i s' H), advance_advance.
        now replace (S k + i)%nat with (k + S i)%nat by lia.
Qed.

Lemma create_pptx_slides (g : rng) (slides : list slide) (outfile : str) :
  exists prs path,
    create_pptx true g slides outfile
    = Ok (prs, path, advance g (List.length slides))
    /\ List.length prs = List.length slides
    /\ forall i s, nth_error slides i = Some s ->
         nth_error prs i = Some (fst (render_slide (advance g i) i s)).
Proof.
  destruct (fold_add_slide slides 0 [] g) as [new [Hfold [Hlen Hnth]]].
  unfold create_pptx. simpl negb. cbv iota.
  unfold Presentation in *. rewrite Hfold. simpl app.
  eexists new, _. split; [reflexivity|]. split; [exact Hlen|exact Hnth].
Qed.

Lemma render_slide_title (g : rng) (idx : nat) (s : slide) :
  title_text (fst (render_slide g idx s)) = slide_title idx s.
Proof.
  unfold render_slide. simpl.
  destruct (truthy (slide_notes s)); simpl;
    destruct ((idx =? 0)%nat && is_nil (slide_bullets s)); reflexivity.
Qed.

Lemma render_slide_notes (g : rng) (idx : nat) (s : slide) :
  notes_text (fst (render_slide g idx s))
  = if truthy (slide_notes s) then Some (slide_notes s) else None.
Proof.
  unfold render_slide. simpl.
  destruct (truthy (slide_notes s)); simpl;
    destruct ((idx =? 0)%nat && is_nil (slide_bullets s)); reflexivity.
Qed.

Lemma render_slide_layout (g : rng) (idx : nat) (s : slide) :
  layout (fst (render_slide g idx s))
  = if (idx =? 0)%nat && is_nil (slide_bullets s)
    then TITLE_LAYOUT else CONTENT_LAYOUT.
Proof.
  unfold render_slide. simpl.
  destruct (truthy (slide_notes s)); simpl;
    destruct ((idx =? 0)%nat && is_nil (slide_bullets s)); reflexivity.
Qed.

Lemma render_slide_background (g : rng) (idx : nat) (s : slide) :
  background (fst (render_slide g idx s))
  = Some (nth (draws g (used g) mod List.length COLOR_PALETTE)
            COLOR_PALETTE (0, 0, 0)%N).
Proof.
  unfold render_slide. simpl.
  destruct (truthy (slide_notes s)); reflexivity.
Qed.

Lemma fold_bullets_tail (emoji : str) (rest : list str) :
  forall (k : nat) (tf : text_frame),
    fold_left
      (fun (tf : text_frame) (ib : nat * str) =>
         let (i, b) := ib in
         let bullet_text := emoji ++ lit " " ++ b in
         if (i =? 0)%nat
         then on_first tf (fun _ => bullet_paragraph bullet_text)
         else tf ++ [bullet_paragraph bullet_text])
      (enumerate (S k) rest) tf
    = tf ++ List.map (fun b => bullet_paragraph (emoji ++ lit " " ++ b)) rest.
Proof.
  induction rest as [|b rest IH]; intros k tf; cbn [enumerate fold_left List.map].
  - now rewrite app_nil_r.
  - cbn [Nat.eqb]. rewrite IH, <- app_assoc. reflexivity.
Qed.

Lemma add_bullets_paragraphs (bullets : list str) (slide_index : nat) :
  bullets <> [] ->
  _add_bullets [empty_paragraph] bullets slide_index
  = List.map
      (fun b =>
         bullet_paragraph
           (nth (slide_index mod List.length EMOJIS) EMOJIS [] ++ lit " " ++ b))
      bullets.
Proof.
  destruct bullets as [|b rest]; [contradiction|]. intros _.
  unfold _add_bullets. cbv zeta. cbn [enumerate fold_left on_first Nat.eqb].
  now rewrite fold_bullets_tail.
Qed.

Lemma render_slide_body (g : rng) (idx : nat) (s : slide) :
  slide_bullets s <> [] ->
  body (fst (render_slide g idx s))
  = Some (List.map
            (fun b =>
               bullet_paragraph
                 (nth (idx mod List.length EMOJIS) EMOJIS [] ++ lit " " ++ b))
            (slide_bullets s)).
Proof.
  intros Hne. rewrite <- (add_bullets_paragraphs _ idx Hne).
  unfold render_slide.
  destruct (slide_bullets s) as [|b rest] eqn:Eb; [contradiction|].
  cbn [is_nil]. rewrite andb_false_r. simpl.
  destruct (truthy (slide_notes s)); reflexivity.
Qed.

(** C1. [create_pptx] returns a document with exactly one slide per record,
    in the order of the records: the [i]-th slide carries the title, the
    notes and the bullets of the [i]-th record. *)
Theorem create_pptx_one_slide_per_record
    (g : rng) (slides : list slide) (outfile : str) :
  exists prs path g',
    create_pptx true g slides outfile = Ok (prs, path, g')
    /\ List.length prs = List.length slides
    /\ forall i s, nth_error slides i = Some s ->
         exists r,
           nth_error prs i = Some r
           /\ title_text r = slide_title i s
           /\ notes_text r
              = (if truthy (slide_notes s) then Some (slide_notes s) else None)
           /\ (slide_bullets s <> [] ->
               body r
               = Some (List.map
                         (fun b =>
                            bullet_paragraph
                              (nth (i mod List.length EMOJIS) EMOJIS []
                               ++ lit " " ++ b))
                         (slide_bullets s))).
Proof.
  destruct (create_pptx_slides g slides outfile) as [prs [path [H [Hlen Hnth]]]].
  exists prs, path, (advance g (List.length slides)).
  split; [exact H|]. split; [exact Hlen|].
  intros i s Hs. eexists. split; [exact (Hnth i s Hs)|].
  split; [apply render_slide_title|].
  split; [apply render_slide_notes|apply render_slide_body].
Qed.

Lemma palette_choice (n : nat) :
  In (nth (n mod List.length COLOR_PALETTE) COLOR_PALETTE (0, 0, 0)%N)
    COLOR_PALETTE.
Proof. apply nth_In. apply Nat.mod_upper_bound. discriminate. Qed.

Lemma accent_not_in_palette : ~ In (RGBColor 25 50 100) COLOR_PALETTE.
Proof.
  unfold COLOR_PALETTE, RGBColor. simpl.
  intros H. repeat (destruct H as [H|H]; [discriminate H|]). exact H.
Qed.

(** C2, as the code has it.  On a deck whose first record has no bullets the
    first slide is laid out as the title slide, yet the fill it ends the
    render with is the palette colour drawn for it: the dark accent fill of
    the title branch is replaced by the [set_slide_background] call that
    closes every turn of the loop. *)
Theorem title_slide_background_overwritten
    (g : rng) (s : slide) (rest : list slide) (outfile : str) :
  slide_bullets s = [] ->
  exists r prs path g',
    create_pptx true g (s :: rest) outfile = Ok (r :: prs, path, g')
    /\ layout r = TITLE_LAYOUT
    /\ background (title_slide (slide_title 0 s)) = Some (RGBColor 25 50 100)
    /\ (exists c, background r = Some c /\ In c COLOR_PALETTE)
    /\ background r <> Some (RGBColor 25 50 100).
Proof.
  intros Hb.
  destruct (create_pptx_slides g (s :: rest) outfile)
    as [prs [path [H [Hlen Hnth]]]].
  specialize (Hnth 0%nat s eq_refl).
  destruct prs as [|r prs]; [discriminate Hnth|].
  assert (Hr : r = fst (render_slide (advance g 0) 0 s))
    by (cbn [nth_error] in Hnth; congruence).
  exists r, prs, path, (advance g (List.length (s :: rest))).
  split; [exact H|]. rewrite Hr.
  split; [rewrite render_slide_layout, Hb; reflexivity|].
  split; [reflexivity|].
  rewrite render_slide_background.
  split.
  - eexists. split; [reflexivity|apply palette_choice].
  - intros Heq. injection Heq as Heq.
    apply accent_not_in_palette. rewrite <- Heq. apply palette_choice.
Qed.

Lemma title_slide_background_overwritten_witness :
  exists r prs path g',
    create_pptx true sample_rng sample_deck (lit "deck") = Ok (r :: prs, path, g')
    /\ layout r = TITLE_LAYOUT
    /\ background (title_slide (lit "Deck")) = Some (RGBColor 25 50 100)
    /\ (exists c, background r = Some c /\ In c COLOR_PALETTE)
    /\ background r <> Some (RGBColor 25 50 100).
Proof.
  apply (title_slide_background_overwritten sample_rng
           {| title := Some (lit "Deck"); bullets := Some []; notes := Some [] |}
           (tl sample_deck) (lit "deck")).
  reflexivity.
Defined.

(** C10. A record whose title is empty or missing is rendered with the
    placeholder title ["Slide N"], [N] its 1-based position, never with an
    empty title. *)
Theorem empty_title_placeholder
    (g : rng) (slides : list slide) (outfile : str) (i : nat) (s : slide) :
  nth_error slides i = Some s ->
  title s = None \/ title s = Some [] ->
  exists prs path g' r,
    create_pptx true g slides outfile = Ok (prs, path, g')
    /\ nth_error prs i = Some r
    /\ title_text r = lit "Slide " ++ of_nat (i + 1)
    /\ title_text r <> [].
Proof.
  intros Hs Ht.
  destruct (create_pptx_slides g slides outfile) as [prs [path [H [_ Hnth]]]].
  exists prs, path, (advance g (List.length slides)). eexists.
  split; [exact H|]. split; [exact (Hnth i s Hs)|].
  rewrite render_slide_title.
  assert (Hp : slide_title i s = lit "Slide " ++ of_nat (i + 1)).
  { unfold slide_title. now destruct Ht as [-> | ->]. }
  rewrite Hp. split; [reflexivity|discriminate].
Qed.

Lemma empty_title_placeholder_witness :
  exists prs path g' r,
    create_pptx true sample_rng sample_deck (lit "deck") = Ok (prs, path, g')
    /\ nth_error prs 1 = Some r
    /\ title_text r = lit "Slide " ++ of_nat (1 + 1)
    /\ title_text r <> [].
Proof.
  apply (empty_title_placeholder sample_rng sample_deck (lit "deck") 1
           {| title := Some []; bullets := Some [lit "a"; lit "b"];
              notes := Some (lit "say this") |}).
  - reflexivity.
  - right. reflexivity.
Defined.

Example placeholder_text : lit "Slide " ++ of_nat (1 + 1) = lit "Slide 2".
Proof. reflexivity. Qed.

(* ================================================================== *)
(** * Properties: the content request *)
(* ================================================================== *)

(** The attempts left after the current one are none exactly when the stop
    rule says stop. *)
Lemma stop_after_attempt_remaining (max_attempt_number attempt_number : nat) :
  (max_attempt_number - attempt_number = 0)%nat
  <-> stop_after_attempt max_attempt_number attempt_number = true.
Proof. unfold stop_after_attempt. rewrite Nat.leb_le. lia. Qed.

(** A run started at attempt [n] with [remaining] attempts left ends, when
    it fails, on the attempt at which [stop_after_attempt (n + remaining)]
    fires, and makes no attempt beyond it. *)
Lemma retrying_stops {A : Type} (wait : nat -> Z) (f : nat -> result A)
    (remaining : nat) :
  forall n k,
    In (Attempt k) (fst (retrying wait f remaining n)) ->
    (n <= k <= n + remaining)%nat
    /\ (stop_after_attempt (n + remaining) k = true ->
        snd (retrying wait f remaining n) = f k
        \/ exists e, f k = Raise e
                     /\ snd (retrying wait f remaining n) = Raise (RetryError e)).
Proof.
  induction remaining as [|r IH]; intros n k Hin; cbn [retrying] in *.
  - destruct (f n) as [v|e] eqn:E; cbn in Hin; destruct Hin as [Hin|[]];
      injection Hin as <-; (split; [lia|intros _]).
    + left. now rewrite E.
    + right. exists e. now rewrite E.
  - destruct (f n) as [v|e] eqn:E.
    + cbn in Hin. destruct Hin as [Hin|[]]. injection Hin as <-.
      split; [lia|]. intros Hs. apply Nat.leb_le in Hs. lia.
    + destruct (retrying wait f r (S n)) as [log res] eqn:Er.
      cbn in Hin. destruct Hin as [Hin|[Hin|Hin]]; try discriminate.
      * injection Hin as <-. split; [lia|].
        intros Hs. apply Nat.leb_le in Hs. lia.
      * specialize (IH (S n) k). rewrite Er in IH. cbn [fst snd] in IH.
        destruct (IH Hin) as [Hk Hstop]. split; [lia|].
        cbn [snd]. intros Hs. apply Hstop.
        now replace (S n + r)%nat with (n + S r)%nat by lia.
Qed.

Section ContentRequestFacts.

Variable json_loads : str -> result value.
Variable openai_installed : bool.

Lemma body_without_key (env : attempt_env) (prompt model : str) :
  openai_installed = true ->
  key_missing env = true ->
  call_openai_json_body json_loads openai_installed env prompt model
  = Raise (RuntimeError (lit "OPENAI_API_KEY environment variable not set.")).
Proof. intros Hi Hk. unfold call_openai_json_body. now rewrite Hi, Hk. Qed.

(** C3, as the code has it.  The decorated call makes between one and
    three attempts and sleeps once between two attempts; an attempt before
    the third that raises, whatever it raises, is followed by the backoff
    sleep and by the next attempt; so with the package installed and the
    API-key variable unset on every attempt the call makes three attempts
    with sleeps of 1 and 2 before it raises tenacity's [RetryError]. *)
Theorem call_openai_json_retries_every_failure
    (env : nat -> attempt_env) (prompt model : str) :
  let log := fst (call_openai_json json_loads openai_installed env prompt model) in
  (1 <= attempts log <= 3)%nat
  /\ sleeps log = (attempts log - 1)%nat
  /\ (forall n e,
        In (Attempt n) log -> (n < 3)%nat ->
        call_openai_json_body json_loads openai_installed (env n) prompt model
        = Raise e ->
        In (Sleep (wait_exponential 1 1 8 n)) log /\ In (Attempt (S n)) log)
  /\ (openai_installed = true ->
      (forall n, key_missing (env n) = true) ->
      call_openai_json json_loads openai_installed env prompt model
      = ([Attempt 1; Sleep 1; Attempt 2; Sleep 2; Attempt 3],
         Raise (RetryError
                  (RuntimeError
                     (lit "OPENAI_API_KEY environment variable not set."))))).
Proof.
  cbv zeta. split; [|split; [|split]].
  - unfold call_openai_json. cbn [retrying Nat.sub].
    destruct (call_openai_json_body _ _ (env 1%nat) _ _);
      [cbn; lia|].
    destruct (call_openai_json_body _ _ (env 2%nat) _ _);
      [cbn; lia|].
    destruct (call_openai_json_body _ _ (env 3%nat) _ _); cbn; lia.
  - unfold call_openai_json. cbn [retrying Nat.sub].
    destruct (call_openai_json_body _ _ (env 1%nat) _ _);
      [reflexivity|].
    destruct (call_openai_json_body _ _ (env 2%nat) _ _);
      [reflexivity|].
    destruct (call_openai_json_body _ _ (env 3%nat) _ _); reflexivity.
  - intros n e Hin Hlt Hb.
    unfold call_openai_json in *. cbn [retrying Nat.sub] in *.
    destruct (call_openai_json_body _ _ (env 1%nat) _ _) eqn:E1.
    { cbn in Hin. destruct Hin as [Hin|[]]. injection Hin as <-.
      rewrite E1 in Hb. discriminate. }
    destruct (call_openai_json_body _ _ (env 2%nat) _ _) eqn:E2.
    { cbn in Hin |- *. destruct Hin as [Hin|[Hin|[Hin|[]]]];
        try discriminate; injection Hin as <-.
      - split; [right; left; reflexivity|right; right; left; reflexivity].
      - rewrite E2 in Hb. discriminate. }
    destruct (call_openai_json_body _ _ (env 3%nat) _ _) eqn:E3;
      cbn in Hin |- *;
      destruct Hin as [Hin|[Hin|[Hin|[Hin|[Hin|[]]]]]];
      try discriminate; injection Hin as <-; try lia;
      (split; [right; left; reflexivity|right; right; left; reflexivity])
      || (split; [do 3 right; left; reflexivity|do 4 right; left; reflexivity]).
  - intros Hi Hk. unfold call_openai_json. cbn [retrying Nat.sub].
    rewrite !body_without_key by (auto using Hk). reflexivity.
Qed.

End ContentRequestFacts.

(** C3, counterexample.  With the package installed and the API-key variable
    unset the call does not fail on its first attempt: it makes three
    attempts and sleeps twice. *)
Lemma missing_credential_is_retried :
  key_missing (no_key_env 1) = true
  /\ call_openai_json sample_loads true no_key_env (lit "prompt") (lit "model")
     = ([Attempt 1; Sleep 1; Attempt 2; Sleep 2; Attempt 3],
        Raise (RetryError
                 (RuntimeError
                    (lit "OPENAI_API_KEY environment variable not set."))))
  /\ attempts
       (fst (call_openai_json sample_loads true no_key_env
               (lit "prompt") (lit "model"))) = 3%nat
  /\ sleeps
       (fst (call_openai_json sample_loads true no_key_env
               (lit "prompt") (lit "model"))) = 2%nat.
Proof. repeat split. Qed.

(* ================================================================== *)
(** * Properties: the normalizer and the repair pass *)
(* ================================================================== *)

Section NormalizerFacts.

Variable str_repr : str -> str.

(** The sequence a [bullets] value stands for: a list as it is, any other
    value alone when it is truthy, and nothing otherwise. *)
Definition bullet_items (v : value) : list value :=
  match v with
  | VList items => items
  | _ => if py_bool v then [v] else []
  end.

Lemma map_filter_comm {A B : Type} (f : A -> B) (p : B -> bool) (l : list A) :
  List.map f (filter (fun x => p (f x)) l) = filter p (List.map f l).
Proof.
  induction l as [|x l IH]; simpl; [reflexivity|].
  destruct (p (f x)); simpl; now rewrite IH.
Qed.

Lemma normalize_slide_dict (e : list (str * value)) :
  normalize_slide str_repr (VDict e)
  = Ok {| title := Some (strip (py_str str_repr (dict_get e (lit "title") (VStr []))));
          bullets :=
            Some (filter truthy
                    (List.map (fun b => strip (py_str str_repr b))
                       (bullet_items (dict_get e (lit "bullets") (VList [])))));
          notes := Some (strip (py_str str_repr (dict_get e (lit "notes") (VStr [])))) |}.
Proof.
  unfold normalize_slide. cbn [py_get bind]. do 2 f_equal.
  rewrite map_filter_comm. f_equal.
  unfold bullet_items.
  destruct (dict_get e (lit "bullets") (VList [])) as [| b | z | nz t | s0 | items | en];
    try reflexivity;
    match goal with |- context [py_bool ?v] => destruct (py_bool v) end;
    reflexivity.
Qed.

Lemma normalize_all_dicts (slides : list value) :
  Forall (fun s => is_dict s = true) slides ->
  exists norm,
    normalize_all str_repr slides = Ok norm
    /\ List.length norm = List.length slides
    /\ forall i s, nth_error slides i = Some s ->
         exists r, nth_error norm i = Some r /\ normalize_slide str_repr s = Ok r.
Proof.
  induction 1 as [|s rest Hs _ [norm [Hn [Hlen Hnth]]]].
  - exists []. repeat split. intros [|i] s H; discriminate.
  - destruct s as [| | | | | |e]; try discriminate Hs.
    cbn [normalize_all]. rewrite normalize_slide_dict, Hn.
    cbn [bind]. eexists. split; [reflexivity|]. split.
    + cbn [List.length]. now rewrite Hlen.
    + intros [|i] s H; cbn [nth_error] in *.
      * injection H as <-. eexists. split; [reflexivity|].
        apply normalize_slide_dict.
      * now apply Hnth.
Qed.

Lemma strip_nil : strip [] = [].
Proof. reflexivity. Qed.

(** C6. On a mapping whose ["slides"] is a non-empty list of mappings the
    normalizer returns one record per element, in order.  The title and the
    notes of a record are the trimmed [str()] of the element's values, the
    empty string when the key is missing; its bullets are the trimmed
    [str()] of the items of the element's bullets, without the empty ones,
    where a value that is not a list counts as one item when truthy and as
    none otherwise.  The sample outline normalizes to the single record
    with bullets ["a"] and ["b"]. *)
Theorem validate_slide_json_coerces :
  (forall (d : list (str * value)) (slides : list value),
     dict_find d (lit "slides") = Some (VList slides) ->
     slides <> [] ->
     Forall (fun s => is_dict s = true) slides ->
     exists norm,
       validate_slide_json str_repr (VDict d) = Ok norm
       /\ List.length norm = List.length slides
       /\ forall i e, nth_error slides i = Some (VDict e) ->
            exists t bs n,
              nth_error norm i
              = Some {| title := Some t; bullets := Some bs; notes := Some n |}
              /\ t = strip (py_str str_repr (dict_get e (lit "title") (VStr [])))
              /\ trimmed t = true
              /\ (dict_find e (lit "title") = None -> t = [])
              /\ n = strip (py_str str_repr (dict_get e (lit "notes") (VStr [])))
              /\ trimmed n = true
              /\ (dict_find e (lit "notes") = None -> n = [])
              /\ bs = filter truthy
                        (List.map (fun b => strip (py_str str_repr b))
                           (bullet_items
                              (dict_get e (lit "bullets") (VList []))))
              /\ Forall (fun b => trimmed b = true /\ b <> []) bs)
  /\ validate_slide_json str_repr raw_slides
     = Ok [ {| title := Some (lit "T");
               bullets := Some [lit "a"; lit "b"];
               notes := Some [] |} ].
Proof.
  split; [|reflexivity].
  intros d slides Hd Hne Hall.
  destruct (normalize_all_dicts slides Hall) as [norm [Hn [Hlen Hnth]]].
  exists norm. split; [|split; [exact Hlen|]].
  - unfold validate_slide_json. rewrite Hd.
    destruct slides as [|s rest]; [contradiction|exact Hn].
  - intros i e Hi. destruct (Hnth i (VDict e) Hi) as [r [Hr Hs]].
    rewrite normalize_slide_dict in Hs. injection Hs as <-.
    do 3 eexists. split; [exact Hr|].
    split; [reflexivity|]. split; [apply strip_trimmed|].
    split.
    { intros Hm. unfold dict_get. now rewrite Hm. }
    split; [reflexivity|]. split; [apply strip_trimmed|].
    split.
    { intros Hm. unfold dict_get. now rewrite Hm. }
    split; [reflexivity|].
    apply Forall_forall. intros b Hb. apply filter_In in Hb as [Hb Ht].
    apply in_map_iff in Hb as [x [<- _]].
    split; [apply strip_trimmed|].
    intros Heq. rewrite Heq in Ht. discriminate.
Qed.

(** C4, as the code has it.  A mapping that fails normalization and holds
    the key ["Slides"], in exactly this casing, is repaired: the key's value
    is moved to ["slides"] and the normalizer is called once more, on the
    repaired mapping, whose outcome is the outcome of the pass.  A mapping
    without the key ["Slides"] is not repaired: the normalizer is not called
    again and the error of the first call is raised. *)
Theorem repair_relocates_capitalized_key
    (d : list (str * value)) (e : exn) :
  validate_slide_json str_repr (VDict d) = Raise e ->
  (forall v, dict_find d (lit "Slides") = Some v ->
     normalize_or_repair str_repr (VDict d)
     = ([VDict d; VDict [(lit "slides", v)]],
        validate_slide_json str_repr (VDict [(lit "slides", v)])))
  /\ (dict_find d (lit "Slides") = None ->
      normalize_or_repair str_repr (VDict d) = ([VDict d], Raise e)).
Proof.
  intros He. unfold normalize_or_repair. rewrite He. split.
  - intros v Hv. unfold dict_mem, dict_get. now rewrite Hv.
  - intros Hn. unfold dict_mem. now rewrite Hn.
Qed.

Lemma filter_is_dict_incl (items : list value) :
  incl (filter is_dict items) items.
Proof. intros x Hx. now apply filter_In in Hx. Qed.

(** C5, as the code has it.  When the first normalization of the raw
    content fails, either a reshaping applies, and then the outcome of the
    pass is the outcome of normalizing the reshaped candidate, so that the
    error raised when this fails too is the error of the second
    normalization; or none applies and the error of the first normalization
    is raised.  The reshaped candidate holds nothing but what the raw
    content holds: the mappings among the items of a raw list, in their
    order (all its items when all are mappings), or the value found under
    ["Slides"] of a raw mapping. *)
Theorem repair_raises_second_error (raw : value) (e : exn) :
  validate_slide_json str_repr raw = Raise e ->
  (exists repaired,
     normalize_or_repair str_repr raw
     = ([raw; repaired], validate_slide_json str_repr repaired)
     /\ ((exists items,
            raw = VList items
            /\ repaired = VDict [(lit "slides", VList (filter is_dict items))]
            /\ incl (filter is_dict items) items
            /\ (Forall (fun s => is_dict s = true) items ->
                filter is_dict items = items))
         \/ (exists d v,
               raw = VDict d
               /\ dict_find d (lit "Slides") = Some v
               /\ repaired = VDict [(lit "slides", v)])))
  \/ (normalize_or_repair str_repr raw = ([raw], Raise e)
      /\ (forall items, raw <> VList items)
      /\ (forall d, raw = VDict d -> dict_find d (lit "Slides") = None)).
Proof.
  intros He. unfold normalize_or_repair. rewrite He.
  destruct raw as [| b | z | nz t | s | items | d];
    try (right; split; [reflexivity|split; [discriminate|discriminate]]).
  - left. eexists. split; [reflexivity|]. left. exists items.
    repeat split; [apply filter_is_dict_incl|apply filter_all].
  - unfold dict_mem, dict_get.
    destruct (dict_find d (lit "Slides")) as [v|] eqn:Ev.
    + left. eexists. split; [reflexivity|]. right. now exists d, v.
    + right. split; [reflexivity|]. split; [discriminate|].
      intros d' Hd. injection Hd as <-. exact Ev.
Qed.

End NormalizerFacts.

Lemma repair_relocates_capitalized_key_witness :
  (forall v, dict_find [(lit "Slides", VList [sample_slide])] (lit "Slides")
             = Some v ->
     normalize_or_repair sample_repr raw_Slides
     = ([raw_Slides; VDict [(lit "slides", v)]],
        validate_slide_json sample_repr (VDict [(lit "slides", v)])))
  /\ (dict_find [(lit "Slides", VList [sample_slide])] (lit "Slides") = None ->
      normalize_or_repair sample_repr raw_Slides
      = ([raw_Slides],
         Raise (ValueError (lit "LLM did not return a 'slides' list")))).
Proof.
  apply (repair_relocates_capitalized_key sample_repr
           [(lit "Slides", VList [sample_slide])]
           (ValueError (lit "LLM did not return a 'slides' list"))).
  reflexivity.
Defined.

(** C4, counterexample.  The key ["SLIDES"] equals ["slides"] when case is
    ignored, and moving its value to ["slides"] would give a mapping that
    normalizes; the pass calls the normalizer once, on the raw mapping only,
    and raises its error. *)
Lemma uppercase_key_is_not_repaired :
  lower (lit "SLIDES") = lit "slides"
  /\ validate_slide_json sample_repr raw_slides
     = Ok [ {| title := Some (lit "T"); bullets := Some [lit "a"; lit "b"];
               notes := Some [] |} ]
  /\ normalize_or_repair sample_repr raw_SLIDES
     = ([raw_SLIDES],
        Raise (ValueError (lit "LLM did not return a 'slides' list"))).
Proof. repeat split. Qed.

Lemma repair_raises_second_error_witness :
  (exists repaired,
     normalize_or_repair sample_repr (VList [])
     = ([VList []; repaired], validate_slide_json sample_repr repaired)
     /\ ((exists items,
            VList [] = VList items
            /\ repaired = VDict [(lit "slides", VList (filter is_dict items))]
            /\ incl (filter is_dict items) items
            /\ (Forall (fun s => is_dict s = true) items ->
                filter is_dict items = items))
         \/ (exists d v,
               VList [] = VDict d
               /\ dict_find d (lit "Slides") = Some v
               /\ repaired = VDict [(lit "slides", v)])))
  \/ (normalize_or_repair sample_repr (VList [])
      = ([VList []],
         Raise (ValueError (lit "LLM did not return a 'slides' list")))
      /\ (forall items, VList [] <> VList items)
      /\ (forall d, VList [] = VDict d -> dict_find d (lit "Slides") = None)).
Proof.
  apply (repair_raises_second_error sample_repr (VList [])
           (ValueError (lit "LLM did not return a 'slides' list"))).
  reflexivity.
Defined.

(** C5, counterexample.  An empty raw list fails the first normalization
    with one error; the reshaped candidate fails the second with another,
    and that one is raised. *)
Lemma repaired_failure_raises_new_error :
  validate_slide_json sample_repr (VList [])
  = Raise (ValueError (lit "LLM did not return a 'slides' list"))
  /\ normalize_or_repair sample_repr (VList [])
     = ([VList []; VDict [(lit "slides", VList [])]],
        Raise (ValueError (lit "'slides' must be a non-empty list")))
  /\ ValueError (lit "'slides' must be a non-empty list")
     <> ValueError (lit "LLM did not return a 'slides' list").
Proof. repeat split. discriminate. Qed.

(* ================================================================== *)
(** * Properties: orchestration *)
(* ================================================================== *)

Section OrchestrationFacts.

Variable str_repr : str -> str.
Variable json_loads : str -> result value.
Variable format_user_prompt : str -> str -> bool -> str.

(** Without web search, [build_deck] raises what the normalization and
    repair of the returned content raises. *)
Lemma build_deck_raises_normalization_error
    (w : world) (topic model : str) (max_results : Z) (dry_run : bool)
    (outfile : option str) (raw : value) (e : exn) :
  truthy (strip topic) = true ->
  snd (call_openai_json json_loads (openai_installed w) (llm_env w)
         (format_user_prompt (strip topic) [] true) model) = Ok raw ->
  snd (normalize_or_repair str_repr raw) = Raise e ->
  build_deck str_repr json_loads format_user_prompt w topic model max_results
    true dry_run outfile
  = Raise e.
Proof.
  intros Ht Hraw He. unfold build_deck. rewrite Ht. cbn [negb bind].
  rewrite Hraw. cbn [bind]. now rewrite He.
Qed.

(** A dry run returns the normalized outline and renders nothing. *)
Lemma build_deck_dry_run
    (w : world) (topic model : str) (max_results : Z)
    (outfile : option str) (raw : value) (slides : list slide) :
  truthy (strip topic) = true ->
  snd (call_openai_json json_loads (openai_installed w) (llm_env w)
         (format_user_prompt (strip topic) [] true) model) = Ok raw ->
  snd (normalize_or_repair str_repr raw) = Ok slides ->
  build_deck str_repr json_loads format_user_prompt w topic model max_results
    true true outfile
  = Ok (DryRun slides).
Proof.
  intros Ht Hraw Hs. unfold build_deck. rewrite Ht. cbn [negb bind].
  rewrite Hraw. cbn [bind]. now rewrite Hs.
Qed.

End OrchestrationFacts.

Example of_Z_examples :
  of_Z 0 = lit "0" /\ of_Z (-5) = lit "-5" /\ of_nat 10 = lit "10".
Proof. repeat split. Qed.

(* ================================================================== *)
(** * Further properties: text utilities *)
(* ================================================================== *)

Lemma len_app (a b : str) : len (a ++ b) = (len a + len b)%Z.
Proof. unfold len. rewrite length_app. lia. Qed.

Lemma len_slice_to (text : str) (stop : Z) :
  len (slice_to text stop)
  = (if (0 <=? stop)%Z then Z.min stop (len text)
     else Z.max 0 (len text + stop))%Z.
Proof.
  unfold slice_to, len.
  destruct (0 <=? stop)%Z eqn:E; rewrite length_firstn.
  - apply Z.leb_le in E. lia.
  - apply Z.leb_gt in E. lia.
Qed.

(** X1. On a text longer than the budget [clamp] returns exactly
    [max_chars] characters when [max_chars] is at least 3; below 3 the
    slice bound turns negative and the result has
    [max (len text + max_chars) 3] characters, more than the budget. *)
Theorem clamp_length_long (text : str) (max_chars : Z) :
  (max_chars < len text)%Z ->
  ((3 <= max_chars)%Z -> len (clamp text max_chars) = max_chars)
  /\ ((max_chars < 3)%Z ->
      len (clamp text max_chars) = Z.max (len text + max_chars) 3
      /\ (max_chars < len (clamp text max_chars))%Z).
Proof.
  intros Hlong. unfold clamp.
  destruct (len text <=? max_chars)%Z eqn:E; [apply Z.leb_le in E; lia|].
  rewrite len_app, len_slice_to. change (len (lit "...")) with 3%Z.
  split; intros Hm.
  - destruct (0 <=? max_chars - 3)%Z eqn:E0; [|apply Z.leb_gt in E0]; lia.
  - destruct (0 <=? max_chars - 3)%Z eqn:E0; [apply Z.leb_le in E0|]; lia.
Qed.

Lemma clamp_length_long_witness :
  ((3 <= 2)%Z -> len (clamp (lit "abcd") 2) = 2%Z)
  /\ ((2 < 3)%Z ->
      len (clamp (lit "abcd") 2) = Z.max (len (lit "abcd") + 2) 3
      /\ (2 < len (clamp (lit "abcd") 2))%Z).
Proof. apply (clamp_length_long (lit "abcd") 2). reflexivity. Defined.

(** X2. With a budget of at least 3, [clamp] keeps the first
    [max_chars - 3] characters of a text it shortens, and clamping its result
    again changes nothing. *)
Theorem clamp_prefix_and_idempotent (text : str) (max_chars : Z) :
  (3 <= max_chars)%Z ->
  clamp (clamp text max_chars) max_chars = clamp text max_chars
  /\ ((max_chars < len text)%Z ->
      clamp text max_chars
      = firstn (Z.to_nat (max_chars - 3)) text ++ lit "...").
Proof.
  intros H3. split.
  - destruct (Z.le_gt_cases (len text) max_chars) as [Hs|Hl].
    + rewrite (clamp_short text max_chars Hs). now apply clamp_short.
    + apply clamp_short.
      destruct (clamp_long text max_chars) as [Hlen _]; lia.
  - intros Hl. unfold clamp, slice_to.
    destruct (len text <=? max_chars)%Z eqn:E; [apply Z.leb_le in E; lia|].
    destruct (0 <=? max_chars - 3)%Z eqn:E0; [reflexivity|].
    apply Z.leb_gt in E0. lia.
Qed.

Lemma clamp_prefix_and_idempotent_witness :
  clamp (clamp (lit "abcdefgh") 5) 5 = clamp (lit "abcdefgh") 5
  /\ ((5 < len (lit "abcdefgh"))%Z ->
      clamp (lit "abcdefgh") 5
      = firstn (Z.to_nat (5 - 3)) (lit "abcdefgh") ++ lit "...").
Proof. apply (clamp_prefix_and_idempotent (lit "abcdefgh") 5). lia. Defined.

Lemma lstrip_incl (s : str) : incl (lstrip s) s.
Proof.
  destruct (lstrip_spec s) as [p [Hs _]].
  intros c Hc. rewrite Hs. apply in_or_app. now right.
Qed.

Lemma strip_incl (s : str) : incl (strip s) s.
Proof.
  unfold strip, rstrip. intros c Hc.
  apply lstrip_incl. apply in_rev. apply (lstrip_incl (rev (lstrip s))).
  now apply in_rev in Hc.
Qed.

Lemma filter_nothing {A : Type} (f : A -> bool) (l : list A) :
  Forall (fun x => f x = false) l -> filter f l = [].
Proof.
  induction 1 as [|x l Hx _ IH]; simpl; [reflexivity|].
  now rewrite Hx.
Qed.

Lemma sanitize_filename_nothing_left (name : str) :
  Forall (fun c => filename_char c = false /\ c <> 32%N) name ->
  sanitize_filename name = [].
Proof.
  intros H. unfold sanitize_filename, re_sub_disallowed.
  apply filter_nothing. unfold replace_char. apply Forall_map.
  apply Forall_forall. intros c Hc. apply strip_incl in Hc.
  rewrite Forall_forall in H. destruct (H c Hc) as [Hf Hne].
  now apply N.eqb_neq in Hne as ->.
Qed.

Lemma create_pptx_functional
    (g : rng) (slides : list slide) (outfile : str)
    (prs1 prs2 : Presentation) (path1 path2 : str) (g1 g2 : rng) :
  create_pptx true g slides outfile = Ok (prs1, path1, g1) ->
  create_pptx true g slides outfile = Ok (prs2, path2, g2) ->
  prs1 = prs2 /\ path1 = path2 /\ g1 = g2.
Proof. intros H1 H2. rewrite H1 in H2. now injection H2. Qed.

Lemma pptx_extension_chars :
  Forall (fun c => filename_char c = true) (lit ".pptx").
Proof. repeat constructor. Qed.

Lemma filename_char_not_separator (c : N) :
  filename_char c = true -> c <> 47%N /\ c <> 92%N.
Proof. intros H. unfold filename_char in H. bool_to_prop H. lia. Qed.

(* ================================================================== *)
(** * Further properties: the renderer *)
(* ================================================================== *)

(** X3. The path [create_pptx] saves under is a plain file name: it is not
    empty, every character of it is in [A-Za-z0-9_.-], so it holds no path
    separator, whatever output name was asked for. *)
Theorem create_pptx_path_is_plain_name
    (g : rng) (slides : list slide) (outfile : str) :
  exists prs path g',
    create_pptx true g slides outfile = Ok (prs, path, g')
    /\ path <> []
    /\ Forall (fun c => filename_char c = true) path
    /\ ~ In 47%N path /\ ~ In 92%N path.
Proof.
  destruct (create_pptx_path g slides outfile) as [prs [g' H]].
  eexists prs, _, g'. split; [exact H|]. cbv zeta.
  set (safe := sanitize_filename _).
  assert (Hsafe : Forall (fun c => filename_char c = true) safe)
    by apply sanitize_filename_chars.
  assert (Hall : Forall (fun c => filename_char c = true)
                   (if endswith (lower safe) (lit ".pptx") then safe
                    else safe ++ lit ".pptx")).
  { destruct (endswith _ _); [exact Hsafe|].
    apply Forall_app. split; [exact Hsafe|apply pptx_extension_chars]. }
  split; [|split; [exact Hall|]].
  - destruct (endswith (lower safe) (lit ".pptx")) eqn:E.
    + intros Hnil. rewrite Hnil in E. discriminate E.
    + intros Hnil. apply app_eq_nil in Hnil as [_ Hnil]. discriminate Hnil.
  - rewrite Forall_forall in Hall.
    split; intros Hin; apply Hall in Hin;
      apply filename_char_not_separator in Hin; lia.
Qed.

(** X4. An empty output name is saved as ["deck.pptx"]; a non-empty output
    name without any character of [A-Za-z0-9_.-] and without a space
    sanitizes to nothing and is saved as [".pptx"]. *)
Theorem create_pptx_fallback_names (g : rng) (slides : list slide) :
  (exists prs g',
     create_pptx true g slides [] = Ok (prs, lit "deck.pptx", g'))
  /\ (forall outfile,
        outfile <> [] ->
        Forall (fun c => filename_char c = false /\ c <> 32%N) outfile ->
        exists prs g',
          create_pptx true g slides outfile = Ok (prs, lit ".pptx", g')).
Proof.
  split.
  - destruct (create_pptx_path g slides []) as [prs [g' H]].
    exists prs, g'. exact H.
  - intros outfile Hne Hall.
    destruct (create_pptx_path g slides outfile) as [prs [g' H]].
    exists prs, g'. rewrite H. cbv zeta.
    destruct outfile as [|c t]; [contradiction|]. cbn [truthy].
    now rewrite (sanitize_filename_nothing_left (c :: t) Hall).
Qed.

Lemma create_pptx_rendered (g : rng) (slides : list slide) (outfile : str) :
  exists prs path,
    create_pptx true g slides outfile
    = Ok (prs, path, advance g (List.length slides))
    /\ List.length prs = List.length slides
    /\ forall i r, nth_error prs i = Some r ->
         exists s, nth_error slides i = Some s
                   /\ r = fst (render_slide (advance g i) i s).
Proof.
  destruct (create_pptx_slides g slides outfile) as [prs [path [H [Hlen Hnth]]]].
  exists prs, path. split; [exact H|]. split; [exact Hlen|].
  intros i r Hr.
  assert (Hi : (i < List.length slides)%nat).
  { rewrite <- Hlen. apply nth_error_Some. now rewrite Hr. }
  destruct (nth_error slides i) as [s|] eqn:Es.
  - exists s. split; [reflexivity|].
    rewrite (Hnth i s Es) in Hr. now injection Hr.
  - apply nth_error_None in Es. lia.
Qed.

(** X5. Every slide of the returned document ends with a solid background
    from [COLOR_PALETTE]: the [i]-th slide has the colour the [i]-th draw of
    the generator selects, and the run uses exactly one draw per record. *)
Theorem create_pptx_backgrounds
    (g : rng) (slides : list slide) (outfile : str) :
  exists prs path,
    create_pptx true g slides outfile
    = Ok (prs, path, advance g (List.length slides))
    /\ forall i r, nth_error prs i = Some r ->
         background r
         = Some (nth (draws g (used g + i) mod List.length COLOR_PALETTE)
                   COLOR_PALETTE (0, 0, 0)%N)
         /\ exists c, background r = Some c /\ In c COLOR_PALETTE.
Proof.
  destruct (create_pptx_rendered g slides outfile) as [prs [path [H [_ Hnth]]]].
  exists prs, path. split; [exact H|].
  intros i r Hr. destruct (Hnth i r Hr) as [s [_ ->]].
  rewrite render_slide_background. split; [reflexivity|].
  eexists. split; [reflexivity|apply palette_choice].
Qed.

Lemma render_slide_decorations (g : rng) (idx : nat) (s : slide) :
  let r := fst (render_slide g idx s) in
  if (idx =? 0)%nat && is_nil (slide_bullets s)
  then subtitle r <> None /\ accent_line r <> None /\ body r = None
       /\ title_centered r = true /\ underline (title_font r) = false
  else subtitle r = None /\ accent_line r = None /\ body r <> None
       /\ title_centered r = false /\ underline (title_font r) = true.
Proof.
  unfold render_slide. simpl.
  destruct (truthy (slide_notes s));
    destruct ((idx =? 0)%nat && is_nil (slide_bullets s)); simpl;
    repeat split; discriminate.
Qed.

Lemma is_nil_spec {A : Type} (l : list A) : is_nil l = true <-> l = [].
Proof. destruct l; split; intros H; try reflexivity; discriminate. Qed.

(** X6. Only the first slide can be a title slide, and it is one exactly
    when its record has no bullets: a slide in title layout carries the
    subtitle box and the accent line and a centred title; every other slide
    is in content layout with a body, an underlined title and neither
    decoration, also when its record has no bullets. *)
Theorem create_pptx_slide_roles
    (g : rng) (slides : list slide) (outfile : str) :
  exists prs path g',
    create_pptx true g slides outfile = Ok (prs, path, g')
    /\ forall i r, nth_error prs i = Some r ->
         exists s,
           nth_error slides i = Some s
           /\ (layout r = TITLE_LAYOUT <-> i = 0%nat /\ slide_bullets s = [])
           /\ (layout r = TITLE_LAYOUT ->
               subtitle r <> None /\ accent_line r <> None /\ body r = None
               /\ title_centered r = true /\ underline (title_font r) = false)
           /\ (layout r <> TITLE_LAYOUT ->
               layout r = CONTENT_LAYOUT
               /\ subtitle r = None /\ accent_line r = None /\ body r <> None
               /\ title_centered r = false /\ underline (title_font r) = true).
Proof.
  destruct (create_pptx_rendered g slides outfile) as [prs [path [H [_ Hnth]]]].
  exists prs, path, (advance g (List.length slides)). split; [exact H|].
  intros i r Hr. destruct (Hnth i r Hr) as [s [Hs ->]].
  exists s. split; [exact Hs|].
  pose proof (render_slide_decorations (advance g i) i s) as Hd.
  cbv zeta in Hd. rewrite render_slide_layout.
  destruct ((i =? 0)%nat && is_nil (slide_bullets s)) eqn:E.
  - apply andb_true_iff in E as [Ei Eb].
    apply Nat.eqb_eq in Ei. apply is_nil_spec in Eb.
    split; [tauto|]. split; [intros _; exact Hd|].
    intros Hc. now contradiction Hc.
  - split.
    + split; [discriminate|]. intros [Hi Hb]. subst i.
      rewrite Hb in E. discriminate E.
    + split; [discriminate|]. intros _. split; [reflexivity|exact Hd].
Qed.

Lemma slide_title_not_empty (idx : nat) (s : slide) : slide_title idx s <> [].
Proof.
  unfold slide_title. destruct (title s) as [[|c t]|]; discriminate.
Qed.

(** X7. No slide of the returned document has an empty title, whatever the
    records hold. *)
Theorem create_pptx_titles_not_empty
    (g : rng) (slides : list slide) (outfile : str) :
  exists prs path g',
    create_pptx true g slides outfile = Ok (prs, path, g')
    /\ Forall (fun r => title_text r <> []) prs.
Proof.
  destruct (create_pptx_rendered g slides outfile) as [prs [path [H [_ Hnth]]]].
  exists prs, path, (advance g (List.length slides)). split; [exact H|].
  apply Forall_forall. intros r Hin.
  apply In_nth_error in Hin as [i Hi].
  destruct (Hnth i r Hi) as [s [_ ->]].
  rewrite render_slide_title. apply slide_title_not_empty.
Qed.

Lemma emoji_injective (i j : nat) :
  (i < 5)%nat -> (j < 5)%nat ->
  nth i EMOJIS [] = nth j EMOJIS [] -> i = j.
Proof.
  intros Hi Hj.
  destruct i as [|[|[|[|[|i]]]]]; try lia;
    destruct j as [|[|[|[|[|j]]]]]; try lia;
    cbn; intros H; try reflexivity; discriminate H.
Qed.

Lemma emoji_single (k : nat) :
  (k < 5)%nat -> exists c, nth k EMOJIS [] = [c].
Proof.
  intros Hk. destruct k as [|[|[|[|[|k]]]]]; try lia; eexists; reflexivity.
Qed.

(** X8. The marker in front of the bullets rotates with period 5: two slides
    decorate the same non-empty bullets alike exactly when their positions
    agree modulo 5. *)
Theorem add_bullets_marker_rotation
    (bullets : list str) (i j : nat) :
  bullets <> [] ->
  (_add_bullets [empty_paragraph] bullets i
   = _add_bullets [empty_paragraph] bullets j
   <-> i mod 5 = j mod 5).
Proof.
  intros Hne. rewrite !add_bullets_paragraphs by exact Hne.
  change (List.length EMOJIS) with 5%nat.
  split.
  - destruct bullets as [|b rest]; [contradiction|].
    assert (Hi : (i mod 5 < 5)%nat) by (apply Nat.mod_upper_bound; discriminate).
    assert (Hj : (j mod 5 < 5)%nat) by (apply Nat.mod_upper_bound; discriminate).
    destruct (emoji_single (i mod 5) Hi) as [ci Hci].
    destruct (emoji_single (j mod 5) Hj) as [cj Hcj].
    intros H. cbn [List.map] in H. rewrite Hci, Hcj in H.
    apply (emoji_injective _ _ Hi Hj). rewrite Hci, Hcj.
    injection H as H _. cbn in H. congruence.
  - now intros ->.
Qed.

Lemma add_bullets_marker_rotation_witness :
  _add_bullets [empty_paragraph] [lit "a"] 1
  = _add_bullets [empty_paragraph] [lit "a"] 6
  <-> 1 mod 5 = 6 mod 5.
Proof.
  apply (add_bullets_marker_rotation [lit "a"] 1 6). discriminate.
Defined.

(** X9. On a frame that already has paragraphs [_add_bullets] overwrites
    only the first one: with bullets, the first bullet takes its place, the
    paragraphs after it stay and the other bullets follow them; without
    bullets, the first paragraph loses its text and nothing else changes. *)
Theorem add_bullets_existing_frame
    (p : paragraph) (rest : text_frame) (slide_index : nat) :
  _add_bullets (p :: rest) [] slide_index = clear_text p :: rest
  /\ forall b bs,
       _add_bullets (p :: rest) (b :: bs) slide_index
       = let emoji := nth (slide_index mod List.length EMOJIS) EMOJIS [] in
         bullet_paragraph (emoji ++ lit " " ++ b)
         :: rest
         ++ List.map (fun x => bullet_paragraph (emoji ++ lit " " ++ x)) bs.
Proof.
  split; [reflexivity|]. intros b bs.
  unfold _add_bullets. cbv zeta. cbn [enumerate fold_left on_first Nat.eqb].
  now rewrite fold_bullets_tail.
Qed.

(* ================================================================== *)
(** * Further properties: the normalizer and the repair pass *)
(* ================================================================== *)

Section NormalizerMoreFacts.

Variable str_repr : str -> str.

Lemma normalize_slide_ok (s : value) (r : slide) :
  normalize_slide str_repr s = Ok r -> is_dict s = true /\ normal r.
Proof.
  destruct s as [| | | | | |e]; try discriminate.
  rewrite normalize_slide_dict. intros H. injection H as <-.
  split; [reflexivity|].
  do 3 eexists. split; [reflexivity|].
  split; [apply strip_trimmed|]. split; [apply strip_trimmed|].
  apply Forall_forall. intros b Hb. apply filter_In in Hb as [Hb Ht].
  apply in_map_iff in Hb as [x [<- _]].
  split; [apply strip_trimmed|].
  intros Heq. rewrite Heq in Ht. discriminate.
Qed.

Lemma normalize_all_ok (slides : list value) :
  forall norm,
    normalize_all str_repr slides = Ok norm ->
    Forall (fun s => is_dict s = true) slides
    /\ List.length norm = List.length slides
    /\ Forall normal norm.
Proof.
  induction slides as [|s rest IH]; intros norm H; cbn [normalize_all] in H.
  - injection H as <-. repeat split; constructor.
  - destruct (normalize_slide str_repr s) as [r|e] eqn:Es; [|discriminate].
    cbn [bind] in H.
    destruct (normalize_all str_repr rest) as [norm'|e] eqn:Er; [|discriminate].
    cbn [bind] in H. injection H as <-.
    destruct (normalize_slide_ok s r Es) as [Hd Hn].
    destruct (IH norm' eq_refl) as [Hall [Hlen Hnorm]].
    repeat split; [now constructor|cbn; now rewrite Hlen|now constructor].
Qed.

Lemma validate_slide_json_ok (data : value) (norm : list slide) :
  validate_slide_json str_repr data = Ok norm ->
  exists d slides,
    data = VDict d
    /\ dict_find d (lit "slides") = Some (VList slides)
    /\ slides <> []
    /\ normalize_all str_repr slides = Ok norm.
Proof.
  unfold validate_slide_json.
  destruct data as [| | | | | |d]; try discriminate.
  destruct (dict_find d (lit "slides")) as [v|] eqn:Ev; [|discriminate].
  destruct v as [| | | | |[|s rest]|]; try discriminate.
  intros H. exists d, (s :: rest).
  split; [reflexivity|]. split; [exact Ev|]. split; [discriminate|exact H].
Qed.

(** X10. The normalizer succeeds exactly on a mapping whose ["slides"] is a
    non-empty list of mappings; what it returns then has one record per
    element, hence at least one, each with its three keys, trimmed title
    and notes, and trimmed non-empty bullets. *)
Theorem validate_slide_json_succeeds_iff (data : value) :
  ((exists norm, validate_slide_json str_repr data = Ok norm)
   <-> exists d slides,
         data = VDict d
         /\ dict_find d (lit "slides") = Some (VList slides)
         /\ slides <> []
         /\ Forall (fun s => is_dict s = true) slides)
  /\ forall norm,
       validate_slide_json str_repr data = Ok norm ->
       norm <> [] /\ Forall normal norm.
Proof.
  split; [split|].
  - intros [norm H].
    destruct (validate_slide_json_ok data norm H) as [d [slides [-> [Hd [Hne Hn]]]]].
    exists d, slides. repeat split; try assumption.
    now destruct (normalize_all_ok slides norm Hn).
  - intros [d [slides [-> [Hd [Hne Hall]]]]].
    destruct (normalize_all_dicts str_repr slides Hall) as [norm [Hn _]].
    exists norm. unfold validate_slide_json. rewrite Hd.
    destruct slides as [|s rest]; [contradiction|exact Hn].
  - intros norm H.
    destruct (validate_slide_json_ok data norm H) as [d [slides [-> [Hd [Hne Hn]]]]].
    destruct (normalize_all_ok slides norm Hn) as [_ [Hlen Hnorm]].
    split; [|exact Hnorm].
    intros ->. destruct slides; [contradiction|discriminate Hlen].
Qed.

Lemma normalize_all_first_non_mapping (pre post : list value) (s : value) :
  Forall (fun x => is_dict x = true) pre ->
  is_dict s = false ->
  normalize_all str_repr (pre ++ s :: post)
  = Raise (AttributeError
             (lit "'" ++ type_name s ++ lit "' object has no attribute 'get'")).
Proof.
  intros Hpre Hs. induction Hpre as [|x pre Hx _ IH].
  - destruct s; try discriminate Hs; reflexivity.
  - destruct x as [| | | | | |e]; try discriminate Hx.
    cbn [app normalize_all]. rewrite normalize_slide_dict. cbn [bind].
    now rewrite IH.
Qed.

(** X11. When the ["slides"] list holds an element that is not a mapping,
    the normalizer raises the [AttributeError] of the first such element,
    naming its type, and returns no record at all, however many mappings
    come before or after it. *)
Theorem validate_slide_json_non_mapping_element
    (d : list (str * value)) (pre post : list value) (s : value) :
  dict_find d (lit "slides") = Some (VList (pre ++ s :: post)) ->
  Forall (fun x => is_dict x = true) pre ->
  is_dict s = false ->
  validate_slide_json str_repr (VDict d)
  = Raise (AttributeError
             (lit "'" ++ type_name s ++ lit "' object has no attribute 'get'")).
Proof.
  intros Hd Hpre Hs. unfold validate_slide_json. rewrite Hd.
  rewrite <- (normalize_all_first_non_mapping pre post s Hpre Hs).
  destruct pre; reflexivity.
Qed.

Lemma map_strip_trimmed (bs : list str) :
  Forall (fun b => trimmed b = true /\ b <> []) bs ->
  filter truthy (List.map strip bs) = bs.
Proof.
  induction 1 as [|b bs [Ht Hne] _ IH]; cbn [List.map filter]; [reflexivity|].
  rewrite (strip_of_trimmed b Ht), IH.
  destruct b; [contradiction|reflexivity].
Qed.

Lemma normalize_slide_of_normal (r : slide) :
  normal r -> normalize_slide str_repr (slide_to_value r) = Ok r.
Proof.
  intros [t [bs [n [-> [Ht [Hn Hbs]]]]]].
  unfold slide_to_value. cbn [title bullets notes app].
  rewrite normalize_slide_dict. do 2 f_equal.
  - change (dict_get _ (lit "title") (VStr [])) with (VStr t).
    cbn [py_str]. now rewrite (strip_of_trimmed t Ht).
  - change (dict_get _ (lit "bullets") (VList []))
      with (VList (List.map VStr bs)).
    cbn [bullet_items]. rewrite map_map. cbn [py_str].
    f_equal. exact (map_strip_trimmed bs Hbs).
  - change (dict_get _ (lit "notes") (VStr [])) with (VStr n).
    cbn [py_str]. now rewrite (strip_of_trimmed n Hn).
Qed.

Lemma normalize_all_of_normal (norm : list slide) :
  Forall normal norm ->
  normalize_all str_repr (List.map slide_to_value norm) = Ok norm.
Proof.
  induction 1 as [|r norm Hr _ IH]; cbn [List.map normalize_all];
    [reflexivity|].
  now rewrite (normalize_slide_of_normal r Hr), IH.
Qed.

(** X12. Normalization is idempotent: the records the normalizer returns,
    given back to it as the dictionaries it built, normalize to
    themselves. *)
Theorem validate_slide_json_idempotent (data : value) (norm : list slide) :
  validate_slide_json str_repr data = Ok norm ->
  validate_slide_json str_repr
    (VDict [(lit "slides", VList (List.map slide_to_value norm))])
  = Ok norm.
Proof.
  intros H.
  destruct (validate_slide_json_ok data norm H) as [d [slides [_ [_ [Hne Hn]]]]].
  destruct (normalize_all_ok slides norm Hn) as [_ [Hlen Hnorm]].
  unfold validate_slide_json.
  change (dict_find [(lit "slides", VList (List.map slide_to_value norm))]
            (lit "slides"))
    with (Some (VList (List.map slide_to_value norm))).
  rewrite <- (normalize_all_of_normal norm Hnorm).
  destruct norm as [|r rest]; [|reflexivity].
  destruct slides; [contradiction|discriminate Hlen].
Qed.

(** X13. A raw list is repaired by keeping its mappings: when it holds at
    least one, the pass calls the normalizer a second time, on the mappings
    under ["slides"], and returns one record per mapping; other items are
    left out without an error.  A raw list without any mapping raises
    ['slides' must be a non-empty list]. *)
Theorem repair_of_raw_list (items : list value) :
  (filter is_dict items <> [] ->
   exists norm,
     normalize_or_repair str_repr (VList items)
     = ([VList items; VDict [(lit "slides", VList (filter is_dict items))]],
        Ok norm)
     /\ List.length norm = List.length (filter is_dict items)
     /\ normalize_all str_repr (filter is_dict items) = Ok norm)
  /\ (filter is_dict items = [] ->
      snd (normalize_or_repair str_repr (VList items))
      = Raise (ValueError (lit "'slides' must be a non-empty list"))).
Proof.
  unfold normalize_or_repair. cbn [validate_slide_json].
  split.
  - intros Hne.
    assert (Hall : Forall (fun s => is_dict s = true) (filter is_dict items)).
    { apply Forall_forall. intros x Hx. now apply filter_In in Hx. }
    destruct (normalize_all_dicts str_repr _ Hall) as [norm [Hn [Hlen _]]].
    exists norm. split; [|split; [exact Hlen|exact Hn]].
    f_equal. unfold validate_slide_json.
    change (dict_find [(lit "slides", VList (filter is_dict items))]
              (lit "slides"))
      with (Some (VList (filter is_dict items))).
    destruct (filter is_dict items); [contradiction|exact Hn].
  - intros ->. reflexivity.
Qed.

End NormalizerMoreFacts.

Lemma validate_slide_json_non_mapping_element_witness :
  validate_slide_json sample_repr
    (VDict [(lit "slides", VList ([sample_slide] ++ VInt 5 :: [sample_slide]))])
  = Raise (AttributeError
             (lit "'" ++ type_name (VInt 5)
              ++ lit "' object has no attribute 'get'")).
Proof.
  apply (validate_slide_json_non_mapping_element sample_repr
           [(lit "slides", VList ([sample_slide] ++ VInt 5 :: [sample_slide]))]
           [sample_slide] [sample_slide] (VInt 5)).
  - reflexivity.
  - repeat constructor.
  - reflexivity.
Defined.

Lemma validate_slide_json_idempotent_witness :
  validate_slide_json sample_repr
    (VDict [(lit "slides",
             VList (List.map slide_to_value
                      [ {| title := Some (lit "T");
                           bullets := Some [lit "a"; lit "b"];
                           notes := Some [] |} ]))])
  = Ok [ {| title := Some (lit "T"); bullets := Some [lit "a"; lit "b"];
            notes := Some [] |} ].
Proof.
  apply (validate_slide_json_idempotent sample_repr raw_slides). reflexivity.
Defined.

(* ================================================================== *)
(** * Further properties: the search context *)
(* ================================================================== *)

Lemma collect_length (rows : list hit) :
  (List.length (collect rows) <= List.length rows)%nat.
Proof.
  unfold collect. induction rows as [|r rows IH]; cbn [flat_map List.length];
    [lia|].
  rewrite length_app.
  destruct (truthy (strip (hit_get r (lit "title")))
            || truthy (strip (hit_get r (lit "body")))); cbn [List.length]; lia.
Qed.

Lemma truthy_spec (s : str) : truthy s = true <-> s <> [].
Proof. destruct s; split; intros H; try reflexivity; try discriminate; now contradiction H. Qed.

Lemma collect_kept (rows : list hit) :
  Forall
    (fun r =>
       (r_title r <> [] \/ r_snippet r <> [])
       /\ trimmed (r_title r) = true
       /\ trimmed (r_snippet r) = true
       /\ trimmed (r_url r) = true)
    (collect rows).
Proof.
  unfold collect. apply Forall_flat_map. apply Forall_forall. intros r _.
  destruct (truthy (strip (hit_get r (lit "title")))
            || truthy (strip (hit_get r (lit "body")))) eqn:E;
    [|constructor].
  constructor; [|constructor]. cbn [r_title r_snippet r_url].
  split.
  - apply orb_true_iff in E as [E|E]; apply truthy_spec in E; tauto.
  - split; [apply strip_trimmed|]. split; [apply strip_trimmed|].
    destruct (truthy (strip (hit_get r (lit "href")))); apply strip_trimmed.
Qed.

Lemma len_clamp_6000 (text : str) : (len (clamp text 6000) <= 6000)%Z.
Proof.
  destruct (Z.le_gt_cases (len text) 6000) as [Hs|Hl].
  - now rewrite clamp_short.
  - destruct (clamp_long text 6000) as [Hlen _]; lia.
Qed.

(** X14. The search hits [get_web_results] keeps are never blank: each has
    a non-empty title or a non-empty snippet, with title, snippet and URL
    trimmed; there are at most as many as the provider returned, and the
    context never exceeds 6000 characters. *)
Theorem get_web_results_keeps_usable_hits
    (ddgs_text : str -> Z -> result (list hit)) (query : str)
    (max_results : Z) (rows : list hit) :
  ddgs_text query max_results = Ok rows ->
  exists results context,
    get_web_results true ddgs_text query max_results = Ok (results, context)
    /\ (List.length results <= List.length rows)%nat
    /\ Forall
         (fun r =>
            (r_title r <> [] \/ r_snippet r <> [])
            /\ trimmed (r_title r) = true
            /\ trimmed (r_snippet r) = true
            /\ trimmed (r_url r) = true)
         results
    /\ (len context <= 6000)%Z.
Proof.
  intros Hrows. unfold get_web_results. cbn [negb]. rewrite Hrows. cbn [bind].
  do 2 eexists. split; [reflexivity|].
  split; [apply collect_length|]. split; [apply collect_kept|].
  apply len_clamp_6000.
Qed.

Lemma get_web_results_keeps_usable_hits_witness :
  exists results context,
    get_web_results true (fun _ _ => Ok sample_hits) (lit "topic") 10
    = Ok (results, context)
    /\ (List.length results <= List.length sample_hits)%nat
    /\ Forall
         (fun r =>
            (r_title r <> [] \/ r_snippet r <> [])
            /\ trimmed (r_title r) = true
            /\ trimmed (r_snippet r) = true
            /\ trimmed (r_url r) = true)
         results
    /\ (len context <= 6000)%Z.
Proof.
  apply (get_web_results_keeps_usable_hits (fun _ _ => Ok sample_hits)
           (lit "topic") 10 sample_hits).
  reflexivity.
Defined.

Lemma collect_blank (rows : list hit) :
  Forall (fun r => strip (hit_get r (lit "title")) = []
                   /\ strip (hit_get r (lit "body")) = []) rows ->
  collect rows = [].
Proof.
  unfold collect. induction 1 as [|r rows [Ht Hb] _ IH]; cbn [flat_map];
    [reflexivity|].
  now rewrite Ht, Hb, IH.
Qed.

(** X15. When no hit has a title or a body left after trimming (in
    particular when the provider returns nothing), [get_web_results] returns
    no result and the empty context, without an error. *)
Theorem get_web_results_nothing_usable
    (ddgs_text : str -> Z -> result (list hit)) (query : str)
    (max_results : Z) (rows : list hit) :
  ddgs_text query max_results = Ok rows ->
  Forall (fun r => strip (hit_get r (lit "title")) = []
                   /\ strip (hit_get r (lit "body")) = []) rows ->
  get_web_results true ddgs_text query max_results = Ok ([], []).
Proof.
  intros Hrows Hblank. unfold get_web_results. cbn [negb].
  rewrite Hrows. cbn [bind]. now rewrite (collect_blank rows Hblank).
Qed.

Lemma get_web_results_nothing_usable_witness :
  get_web_results true (fun _ _ => Ok blank_hits) (lit "topic") 8 = Ok ([], []).
Proof.
  apply (get_web_results_nothing_usable (fun _ _ => Ok blank_hits)
           (lit "topic") 8 blank_hits).
  - reflexivity.
  - repeat constructor.
Defined.

(* ================================================================== *)
(** * Further properties: the content request *)
(* ================================================================== *)

Section ContentRequestMoreFacts.

Variable json_loads : str -> result value.
Variable openai_installed : bool.



End ContentRequestMoreFacts.

(* ================================================================== *)
(** * Further properties: orchestration and entry point *)
(* ================================================================== *)

Lemma create_pptx_ok (installed : bool) (g : rng) (slides : list slide)
    (outfile : str) (prs : Presentation) (path : str) (g' : rng) :
  create_pptx installed g slides outfile = Ok (prs, path, g') ->
  installed = true
  /\ List.length prs = List.length slides
  /\ path <> []
  /\ endswith (lower path) (lit ".pptx") = true
  /\ path = (let safe_out :=
               sanitize_filename
                 (if truthy outfile then outfile else lit "deck.pptx") in
             if endswith (lower safe_out) (lit ".pptx") then safe_out
             else safe_out ++ lit ".pptx").
Proof.
  destruct installed; [|discriminate]. intros H.
  destruct (create_pptx_path g slides outfile) as [prs1 [g1 H1]].
  destruct (create_pptx_slides g slides outfile) as [prs2 [path2 [H2 [Hlen _]]]].
  destruct (create_pptx_functional _ _ _ _ _ _ _ _ _ H H1) as [_ [Hp _]].
  destruct (create_pptx_functional _ _ _ _ _ _ _ _ _ H H2) as [Hprs _].
  rewrite <- Hprs in Hlen.
  split; [reflexivity|]. split; [exact Hlen|].
  assert (Hend : endswith (lower path) (lit ".pptx") = true).
  { rewrite Hp. cbv zeta. set (safe := sanitize_filename _).
    destruct (endswith (lower safe) (lit ".pptx")) eqn:E; [exact E|].
    rewrite lower_app. apply endswith_app. }
  split; [|split; [exact Hend|exact Hp]].
  intros ->. discriminate Hend.
Qed.

Section OrchestrationMoreFacts.

Variable str_repr : str -> str.
Variable json_loads : str -> result value.
Variable format_user_prompt : str -> str -> bool -> str.

Lemma normalize_or_repair_ok (raw : value) (slides : list slide) :
  snd (normalize_or_repair str_repr raw) = Ok slides ->
  exists data, validate_slide_json str_repr data = Ok slides.
Proof.
  unfold normalize_or_repair.
  destruct (validate_slide_json str_repr raw) as [n|e] eqn:E.
  - cbn [snd]. intros H. exists raw. now rewrite E.
  - destruct raw as [| | | | |items|d]; cbn [snd]; try discriminate.
    + intros H. eexists. exact H.
    + destruct (dict_mem d (lit "Slides")); cbn [snd]; [|discriminate].
      intros H. eexists. exact H.
Qed.

Lemma normalize_or_repair_not_empty (raw : value) (slides : list slide) :
  snd (normalize_or_repair str_repr raw) = Ok slides -> slides <> [].
Proof.
  intros H. destruct (normalize_or_repair_ok raw slides H) as [data Hd].
  destruct (validate_slide_json_ok str_repr data slides Hd)
    as [d [l [_ [_ [Hne Hn]]]]].
  destruct (normalize_all_ok str_repr l slides Hn) as [_ [Hlen _]].
  intros ->. destruct l; [contradiction|discriminate Hlen].
Qed.

(** What a successful run of [build_deck] went through. *)
Lemma build_deck_ok_inv
    (w : world) (topic model : str) (max_results : Z)
    (skip_web dry_run : bool) (outfile : option str) (out : deck_output) :
  build_deck str_repr json_loads format_user_prompt w topic model max_results
    skip_web dry_run outfile = Ok out ->
  truthy (strip topic) = true
  /\ exists web_ctx raw slides,
       snd (call_openai_json json_loads (openai_installed w) (llm_env w)
              (format_user_prompt (strip topic) web_ctx true) model) = Ok raw
       /\ snd (normalize_or_repair str_repr raw) = Ok slides
       /\ ((dry_run = true /\ out = DryRun slides)
           \/ (dry_run = false
               /\ exists prs path g',
                    create_pptx (pptx_installed w) (random w) slides
                      (output_name topic outfile) = Ok (prs, path, g')
                    /\ out = Written path prs)).
Proof.
  unfold build_deck.
  destruct (truthy (strip topic)) eqn:Et; cbn [negb]; [|discriminate].
  intros H. split; [reflexivity|].
  match type of H with bind ?c _ = _ => destruct c as [web_ctx|e] eqn:Ew end;
    [|discriminate].
  cbn [bind] in H.
  match type of H with bind ?c _ = _ => destruct c as [raw|e] eqn:Er end;
    [|discriminate].
  cbn [bind] in H.
  match type of H with bind ?c _ = _ => destruct c as [slides|e] eqn:Es end;
    [|discriminate].
  cbn [bind] in H.
  exists web_ctx, raw, slides. split; [exact Er|]. split; [exact Es|].
  destruct dry_run.
  - left. split; [reflexivity|]. now injection H as <-.
  - right. split; [reflexivity|].
    match type of H with bind ?c _ = _ => destruct c as [[[prs path] g']|e] eqn:Ec end;
      [|discriminate].
    cbn [bind] in H. injection H as <-.
    exists prs, path, g'. split; [exact Ec|reflexivity].
Qed.

(** X17. With web search enabled a failing search is fatal: on a non-blank
    topic [build_deck] raises the error of the missing search package, or
    the error the provider raised, whatever the other collaborators would
    have done. *)
Theorem build_deck_search_failure_is_fatal
    (w : world) (topic model : str) (max_results : Z) (dry_run : bool)
    (outfile : option str) :
  truthy (strip topic) = true ->
  (ddgs_installed w = false ->
   build_deck str_repr json_loads format_user_prompt w topic model max_results
     false dry_run outfile
   = Raise (RuntimeError (lit "duckduckgo-search is not installed.")))
  /\ (forall e,
        ddgs_installed w = true ->
        ddgs_text w (strip topic) max_results = Raise e ->
        build_deck str_repr json_loads format_user_prompt w topic model
          max_results false dry_run outfile
        = Raise e).
Proof.
  intros Ht. unfold build_deck, get_web_results. rewrite Ht. cbn [negb].
  split.
  - intros ->. reflexivity.
  - intros e -> ->. reflexivity.
Qed.


(** X19. A document [build_deck] writes has at least one slide, one per
    normalized record, and its path is not empty and ends with [".pptx"]. *)
Theorem build_deck_written_deck
    (w : world) (topic model : str) (max_results : Z)
    (skip_web dry_run : bool) (outfile : option str)
    (path : str) (prs : Presentation) :
  build_deck str_repr json_loads format_user_prompt w topic model max_results
    skip_web dry_run outfile = Ok (Written path prs) ->
  prs <> [] /\ path <> [] /\ endswith (lower path) (lit ".pptx") = true.
Proof.
  intros H.
  destruct (build_deck_ok_inv _ _ _ _ _ _ _ _ H)
    as [_ [web_ctx [raw [slides [_ [Hs [[_ Ho]|[_ [prs' [path' [g' [Hc Ho]]]]]]]]]]]];
    [discriminate Ho|].
  injection Ho as -> ->.
  destruct (create_pptx_ok _ _ _ _ _ _ _ Hc) as [_ [Hlen [Hne [Hend _]]]].
  split; [|split; [exact Hne|exact Hend]].
  pose proof (normalize_or_repair_not_empty raw slides Hs) as Hsl.
  intros ->. destruct slides; [contradiction|discriminate Hlen].
Qed.

(** X20. Without an output name (none given, or an empty one) the document
    is saved under the sanitized, trimmed topic followed by [".pptx"]. *)
Theorem build_deck_default_path
    (w : world) (topic model : str) (max_results : Z)
    (skip_web dry_run : bool) (outfile : option str)
    (path : str) (prs : Presentation) :
  outfile = None \/ outfile = Some [] ->
  build_deck str_repr json_loads format_user_prompt w topic model max_results
    skip_web dry_run outfile = Ok (Written path prs) ->
  path = sanitize_filename (strip topic) ++ lit ".pptx".
Proof.
  intros Ho H.
  destruct (build_deck_ok_inv _ _ _ _ _ _ _ _ H)
    as [_ [web_ctx [raw [slides [_ [_ [[_ Hw]|[_ [prs' [path' [g' [Hc Hw]]]]]]]]]]]];
    [discriminate Hw|].
  injection Hw as -> ->.
  destruct (create_pptx_ok _ _ _ _ _ _ _ Hc) as [_ [_ [_ [_ Hp]]]].
  assert (Hout : output_name topic outfile
                 = sanitize_filename (strip topic) ++ lit ".pptx")
    by (destruct Ho as [-> | ->]; reflexivity).
  rewrite Hout in Hp. cbv zeta in Hp.
  set (name := sanitize_filename (strip topic) ++ lit ".pptx") in *.
  assert (Hname : truthy name = true).
  { unfold name. now destruct (sanitize_filename (strip topic)). }
  rewrite Hname in Hp.
  assert (Hfix : sanitize_filename name = name).
  { apply sanitize_filename_fixed. unfold name. apply Forall_app.
    split; [apply sanitize_filename_chars|apply pptx_extension_chars]. }
  rewrite Hfix in Hp.
  assert (Hend : endswith (lower name) (lit ".pptx") = true).
  { unfold name. rewrite lower_app. apply endswith_app. }
  now rewrite Hend in Hp.
Qed.

End OrchestrationMoreFacts.

Lemma build_deck_search_failure_is_fatal_witness :
  (ddgs_installed no_search_world = false ->
   build_deck sample_repr sample_loads_ok sample_prompt no_search_world
     (lit "Solar power") (lit "gpt-4o-mini") 8 false false None
   = Raise (RuntimeError (lit "duckduckgo-search is not installed.")))
  /\ (forall e,
        ddgs_installed no_search_world = true ->
        ddgs_text no_search_world (strip (lit "Solar power")) 8 = Raise e ->
        build_deck sample_repr sample_loads_ok sample_prompt no_search_world
          (lit "Solar power") (lit "gpt-4o-mini") 8 false false None
        = Raise e).
Proof.
  apply (build_deck_search_failure_is_fatal sample_repr sample_loads_ok
           sample_prompt no_search_world (lit "Solar power")
           (lit "gpt-4o-mini") 8 false None).
  reflexivity.
Defined.


Lemma build_deck_written_deck_witness :
  exists path prs,
    build_deck sample_repr sample_loads_ok sample_prompt sample_world
      (lit "Solar power") (lit "gpt-4o-mini") 8 true false
      (Some (lit "My Deck")) = Ok (Written path prs)
    /\ prs <> [] /\ path <> [] /\ endswith (lower path) (lit ".pptx") = true.
Proof.
  eexists _, _. split; [reflexivity|].
  apply (build_deck_written_deck sample_repr sample_loads_ok sample_prompt
           sample_world (lit "Solar power") (lit "gpt-4o-mini") 8 true false
           (Some (lit "My Deck"))).
  reflexivity.
Defined.

Lemma build_deck_default_path_witness :
  exists path prs,
    build_deck sample_repr sample_loads_ok sample_prompt sample_world
      (lit "Solar power") (lit "gpt-4o-mini") 8 true false None
    = Ok (Written path prs)
    /\ path = sanitize_filename (strip (lit "Solar power")) ++ lit ".pptx".
Proof.
  eexists _, _. split; [reflexivity|].
  eapply (build_deck_default_path sample_repr sample_loads_ok sample_prompt
           sample_world (lit "Solar power") (lit "gpt-4o-mini") 8 true false
           None).
  - left. reflexivity.
  - reflexivity.
Defined.

Example default_path_value :
  sanitize_filename (strip (lit "Solar power")) ++ lit ".pptx"
  = lit "Solar_power.pptx".
Proof. reflexivity. Qed.

Section EntryPointFacts.

Variable str_repr : str -> str.
Variable json_loads : str -> result value.
Variable format_user_prompt : str -> str -> bool -> str.

Lemma build_deck_written_path
    (w : world) (topic model : str) (max_results : Z)
    (skip_web dry_run : bool) (outfile : option str)
    (path : str) (prs : Presentation) :
  build_deck str_repr json_loads format_user_prompt w topic model max_results
    skip_web dry_run outfile = Ok (Written path prs) ->
  truthy path = true /\ prs <> [].
Proof.
  intros H.
  destruct (build_deck_ok_inv _ _ _ _ _ _ _ _ _ _ _ H)
    as [_ [web_ctx [raw [slides [_ [Hs [[_ Ho]|[_ [prs' [path' [g' [Hc Ho]]]]]]]]]]]];
    [discriminate Ho|].
  injection Ho as <- <-.
  destruct (create_pptx_ok _ _ _ _ _ _ _ Hc) as [_ [Hlen [Hne _]]].
  split; [now destruct path|].
  pose proof (normalize_or_repair_not_empty _ raw slides Hs) as Hsl.
  intros ->. destruct slides; [contradiction|discriminate Hlen].
Qed.

(** X21. A run of [main] that returns exits with 0 or 2.  It exits with 2
    exactly when it printed one error line, and then nothing was saved; when
    a document was saved it exits with 0, the one line it printed names the
    saved path, and the document has at least one slide. *)
Theorem main_exit_codes
    (w : world) (ns : Namespace) (input_line : result str) (r : run) :
  main str_repr json_loads format_user_prompt w ns input_line = Ok r ->
  (exit_code r = 0%Z \/ exit_code r = 2%Z)
  /\ (exit_code r = 2%Z <-> exists e, printed r = [ErrorLine e])
  /\ (exit_code r = 2%Z -> saved r = None)
  /\ (forall path prs,
        saved r = Some (path, prs) ->
        exit_code r = 0%Z /\ printed r = [GeneratedLine path] /\ prs <> []).
Proof.
  unfold main.
  match goal with |- bind ?c _ = _ -> _ => destruct c as [topic|e] end;
    [|discriminate].
  cbn [bind].
  destruct (build_deck _ _ _ _ _ _ _ _ _ _) as [[slides|path prs]|e] eqn:Eb;
    intros H; injection H as <-; cbn [exit_code printed saved].
  - split; [now left|]. split; [|split; [discriminate|discriminate]].
    split; [discriminate|]. intros [e He]. discriminate He.
  - destruct (build_deck_written_path _ _ _ _ _ _ _ _ _ Eb) as [Hp Hprs].
    rewrite Hp.
    split; [now left|]. split; [|split; [discriminate|]].
    + split; [discriminate|]. intros [e He]. discriminate He.
    + intros path' prs' Hs. injection Hs as <- <-. now repeat split.
  - split; [now right|]. split; [|split; [reflexivity|discriminate]].
    split; [intros _; now exists e|reflexivity].
Qed.


(** X23. A topic that is blank after trimming, given on the command line or
    typed at the prompt, ends the run with exit code 2 and the error
    [Topic must not be empty]; nothing is searched, requested or saved. *)
Theorem main_blank_topic
    (w : world) (ns : Namespace) (input_line : result str) :
  let failed :=
    Ok {| printed := [ErrorLine (ValueError (lit "Topic must not be empty"))];
          saved := None; exit_code := 2 |} in
  (forall c t,
     ns_topic ns = Some (c :: t) -> strip (c :: t) = [] ->
     main str_repr json_loads format_user_prompt w ns input_line = failed)
  /\ (forall l,
        ns_topic ns = None \/ ns_topic ns = Some [] ->
        input_line = Ok l -> strip l = [] ->
        main str_repr json_loads format_user_prompt w ns input_line = failed).
Proof.
  cbv zeta. unfold main, build_deck. split.
  - intros c t -> Hs. cbn [bind]. now rewrite Hs.
  - intros l [-> | ->] -> Hs; cbn [bind]; now rewrite Hs.
Qed.

End EntryPointFacts.

Lemma main_exit_codes_witness :
  exists r,
    main sample_repr sample_loads_ok sample_prompt sample_world
      (sample_args false) (Raise (External 0)) = Ok r
    /\ (exit_code r = 0%Z \/ exit_code r = 2%Z)
    /\ (exit_code r = 2%Z <-> exists e, printed r = [ErrorLine e])
    /\ (exit_code r = 2%Z -> saved r = None)
    /\ (forall path prs,
          saved r = Some (path, prs) ->
          exit_code r = 0%Z /\ printed r = [GeneratedLine path] /\ prs <> []).
Proof.
  eexists. split; [reflexivity|].
  apply (main_exit_codes sample_repr sample_loads_ok sample_prompt
           sample_world (sample_args false) (Raise (External 0))).
  reflexivity.
Defined.

Example main_sample_run :
  exists prs,
    main sample_repr sample_loads_ok sample_prompt sample_world
      (sample_args false) (Raise (External 0))
    = Ok {| printed := [GeneratedLine (lit "Solar_power.pptx")];
            saved := Some (lit "Solar_power.pptx", prs);
            exit_code := 0 |}
    /\ List.length prs = 1%nat.
Proof. eexists. split; reflexivity. Qed.
